(** * LSUN data loader: index resolution, key cache and class validation

    A shallow embedding of [dataloader.py]: the classes [LSUNClass] and
    [LSUNCustomDataLoader], with the Python pieces they rely on (list
    indexing, [str.split], [str.join], exceptions) written out, and the
    properties of the indexing and access layer proved over it.

    Conventions.
    - A Python [int] is a [Z]; [len] of a store is a [nat].
    - A Python [str] and a Python [bytes] are both a Rocq [string], read as
      the sequence of bytes of the UTF-8 encoding.  The only characters the
      code looks at are ["_"] and the ASCII letters, which UTF-8 keeps as
      single bytes that occur nowhere else.
    - A raised exception is the left summand of [result]; code that touches
      the file system runs in the monad [io], which threads a [world]. *)

From stdpp Require Import base option list gmap strings.
From Stdlib Require Import ZArith Lia Ascii.

Set Warnings "-register-all".

Local Open Scope string_scope.
Local Open Scope list_scope.
Local Open Scope Z_scope.

(** ** Python values, exceptions *)

(** What the argument [classes] can be at run time.  [PyList] stands for
    any finite iterable other than a string: the code only ever calls
    [list(...)] on it. *)
Inductive pyval :=
| PyNone
| PyInt (z : Z)
| PyStr (s : string)
| PyList (l : list pyval).

(** The exceptions that the modelled code can raise.  [LmdbError] is
    [lmdb.Error] from [lmdb.open], [UnpicklingError] comes from
    [pickle.load], [DecodeError] from [Image.open]. *)
Inductive exn :=
| ValueError (msg : string)
| IndexError
| TypeError
| LmdbError
| UnpicklingError
| DecodeError.

Definition result (A : Type) : Type := (exn + A)%type.

Definition raise {A} (e : exn) : result A := inl e.

#[export] Instance result_ret : MRet result := λ A a, inr a.
#[export] Instance result_bind : MBind result := λ A B k m,
  match m with
  | inl e => inl e
  | inr a => k a
  end.

Abbreviation ret := (mret (M:=result)).

(** ** Lists and strings as Python has them *)

(** [l[i]]: a negative index counts from the end, and an index outside
    [-len(l), len(l))] raises [IndexError]. *)
Definition py_index {A} (l : list A) (i : Z) : result A :=
  let n := Z.of_nat (List.length l) in
  let j := if i <? 0 then i + n else i in
  if (j <? 0) || (n <=? j) then raise IndexError
  else match l !! Z.to_nat j with
       | Some x => ret x
       | None => raise IndexError
       end.

(** [l[:-1]] *)
Definition py_init {A} (l : list A) : list A := take (List.length l - 1)%nat l.

(** [s.split(sep)] for a separator of one character. *)
Fixpoint split (sep : Ascii.ascii) (s : string) : list string :=
  match s with
  | EmptyString => [EmptyString]
  | String c rest =>
    if Ascii.eqb c sep then EmptyString :: split sep rest
    else match split sep rest with
         | [] => [String c EmptyString]
         | w :: ws => String c w :: ws
         end
  end.

(** [sep.join(l)] *)
Fixpoint join (sep : string) (l : list string) : string :=
  match l with
  | [] => ""
  | [x] => x
  | x :: rest => x +:+ sep +:+ join sep rest
  end.

(** [c in s] for a character [c]. *)
Fixpoint contains (c : ascii) (s : string) : bool :=
  match s with
  | EmptyString => false
  | String c' rest => Ascii.eqb c' c || contains c rest
  end.

(** [list(s)] for a string: its characters, each a string of length one. *)
Fixpoint chars (s : string) : list string :=
  match s with
  | EmptyString => []
  | String c rest => String c EmptyString :: chars rest
  end.

(** [c in string.ascii_letters] *)
Definition ascii_letter (c : Ascii.ascii) : bool :=
  let n := Ascii.nat_of_ascii c in
  ((65 <=? n) && (n <=? 90) || (97 <=? n) && (n <=? 122))%nat.

(** ["".join(c for c in s if c in string.ascii_letters)] *)
Fixpoint letters (s : string) : string :=
  match s with
  | EmptyString => EmptyString
  | String c rest =>
    if ascii_letter c then String c (letters rest) else letters rest
  end.

(** [str(type(v))], as it is formatted into the messages. *)
Definition type_name (v : pyval) : string :=
  match v with
  | PyNone => "<class 'NoneType'>"
  | PyInt _ => "<class 'int'>"
  | PyStr _ => "<class 'str'>"
  | PyList _ => "<class 'list'>"
  end.

Definition isinstance_Iterable (v : pyval) : bool :=
  match v with
  | PyStr _ | PyList _ => true
  | PyNone | PyInt _ => false
  end.

(** [list(v)] for an iterable [v]. *)
Definition py_list (v : pyval) : list pyval :=
  match v with
  | PyStr s => PyStr <$> chars s
  | PyList l => l
  | PyNone | PyInt _ => []
  end.

(** ** torchvision.datasets.utils *)

(** [iterable_to_str]: the items in single quotes, separated by commas. *)
Definition iterable_to_str (l : list string) : string :=
  "'" +:+ join "', '" l +:+ "'".

(** [verify_str_arg(value, arg, valid_values, custom_msg)].  It returns
    [value] when it is a string and, if [valid_values] is given, one of
    them; it raises [ValueError] otherwise.  [custom_msg] only replaces the
    message about an invalid value, never the one about a value that is
    not a string. *)
Definition verify_str_arg (value : pyval) (arg : option string)
    (valid_values : option (list string)) (custom_msg : option string)
  : result string :=
  match value with
  | PyStr s =>
    match valid_values with
    | None => ret s
    | Some vs =>
      if bool_decide (s ∈ vs) then ret s
      else raise (ValueError
        match custom_msg with
        | Some msg => msg
        | None =>
          "Unknown value '" +:+ s +:+ "' for argument " +:+ default "None" arg
          +:+ ". Valid values are {" +:+ iterable_to_str vs +:+ "}."
        end)
    end
  | _ =>
    raise (ValueError
      match arg with
      | None => "Expected type str, but got type " +:+ type_name value +:+ "."
      | Some a =>
        "Expected type str for argument " +:+ a +:+ ", but got type "
        +:+ type_name value +:+ "."
      end)
  end.

(** [for x in l: body(x)], for a body that returns nothing and may raise. *)
Fixpoint for_each {A} (body : A → result unit) (l : list A) : result unit :=
  match l with
  | [] => ret ()
  | x :: rest => body x;; for_each body rest
  end.

(** ** Class validation: [LSUNCustomDataLoader._verify_classes] *)

Definition categories : list string :=
  [ "sheep"; "bedroom"; "bridge"; "church_outdoor"; "classroom";
    "conference_room"; "dining_room"; "kitchen"; "living_room";
    "restaurant"; "tower" ].

Definition dset_opts : list string := ["train"; "val"; "test"].

(** ["Unknown value '{}' for {}. Valid values are {{{}}}.".format(v, what, valid)] *)
Definition msg_fmtstr (v what valid : string) : string :=
  "Unknown value '" +:+ v +:+ "' for " +:+ what
  +:+ ". Valid values are {" +:+ valid +:+ "}.".

Definition msg_fmtstr_type (ty : string) : string :=
  "Expected type str for elements in argument classes, but got type "
  +:+ ty +:+ ".".

(** The message of the error for a category outside the vocabulary, and
    for a postfix that is no split. *)
Definition unknown_category (category : string) : exn :=
  ValueError (msg_fmtstr category "LSUN class" (iterable_to_str categories)).

Definition unknown_split (dset_opt : string) : exn :=
  ValueError (msg_fmtstr dset_opt "postfix" (iterable_to_str dset_opts)).

(** [c_short = c.split("_")] and
    [category, dset_opt = "_".join(c_short[:-1]), c_short[-1]] *)
Definition split_class (c : string) : result (string * string) :=
  let c_short := split "_" c in
  let category := join "_" (py_init c_short) in
  dset_opt ← py_index c_short (-1);
  ret (category, dset_opt).

(** The body of the loop over the elements of an explicit list. *)
Definition verify_class (c : pyval) : result unit :=
  c ← verify_str_arg c None None (Some (msg_fmtstr_type (type_name c)));
  '(category, dset_opt) ← split_class c;
  let msg := msg_fmtstr category "LSUN class" (iterable_to_str categories) in
  verify_str_arg (PyStr category) None (Some categories) (Some msg);;
  let msg := msg_fmtstr dset_opt "postfix" (iterable_to_str dset_opts) in
  verify_str_arg (PyStr dset_opt) None (Some dset_opts) (Some msg);;
  ret ().

(** An element that passes the loop body: its category is in the
    vocabulary and its postfix is a split. *)
Definition valid_class (c : string) : Prop :=
  ∃ category dset_opt,
    split_class c = inr (category, dset_opt)
    ∧ category ∈ categories ∧ dset_opt ∈ dset_opts.

(** The [try] block raises nothing but the [ValueError] of
    [verify_str_arg], which the [except] clause catches. *)
Definition _verify_classes (classes : pyval) : result (list pyval) :=
  match verify_str_arg classes (Some "classes") (Some dset_opts) None with
  | inr s =>
    if String.eqb s "test" then ret [PyStr s]
    else ret ((λ c, PyStr (c +:+ "_" +:+ s)) <$> categories)
  | inl (ValueError _) =>
    if negb (isinstance_Iterable classes) then
      raise (ValueError
        ("Expected type str or Iterable for argument classes, but got type "
         +:+ type_name classes +:+ "."))
    else
      let classes := py_list classes in
      for_each verify_class classes;;
      ret classes
  | inl e => raise e
  end.

(** ** The world outside: stores and cache files *)

Abbreviation bytes := string (only parsing).

(** An LMDB store, as the entries of its main database in cursor order
    (LMDB keeps them sorted by key, each key once). *)
Abbreviation store := (list (bytes * bytes)) (only parsing).

(** A file in the working directory.  The only files this code reads are
    the ones it wrote with [pickle.dump]; a file that [pickle.load] cannot
    read is [Unreadable]. *)
Inductive file :=
| Pickled (keys : list bytes)
| Unreadable.

(** What the code does to the outside, most recent first. *)
Inductive event :=
| EvOpen (root : string)
| EvScan (root : string)
| EvLoad (path : string)
| EvDump (path : string).

Record world := World {
  stores : gmap string (list (bytes * bytes));
  files : gmap string file;
  trace : list event
}.

Definition io (A : Type) : Type := world → result A * world.

#[export] Instance io_ret : MRet io := λ A a w, (inr a, w).
#[export] Instance io_bind : MBind io := λ A B k m w,
  match m w with
  | (inl e, w') => (inl e, w')
  | (inr a, w') => k a w'
  end.

Definition lift {A} (r : result A) : io A := λ w, (r, w).

Definition log (e : event) (w : world) : world :=
  World (stores w) (files w) (e :: trace w).

(** [lmdb.open(root, readonly=True, ...)]: there must be a store at [root]. *)
Definition lmdb_open (root : string) : io (list (bytes * bytes)) := λ w,
  match stores w !! root with
  | Some env => (inr env, log (EvOpen root) w)
  | None => (inl LmdbError, w)
  end.

(** [txn.stat()["entries"]] *)
Definition stat_entries (env : store) : nat := List.length env.

(** [[key for key in txn.cursor().iternext(keys=True, values=False)]] *)
Definition cursor_keys (root : string) (env : store) : io (list bytes) := λ w,
  (inr env.*1, log (EvScan root) w).

(** [txn.get(key)]: the value, or [None] for a key that is not there. *)
Fixpoint txn_get (env : store) (key : bytes) : option bytes :=
  match env with
  | [] => None
  | (k, v) :: rest => if String.eqb k key then Some v else txn_get rest key
  end.

(** [os.path.isfile(path)] *)
Definition isfile (path : string) : io bool := λ w,
  (inr (bool_decide (is_Some (files w !! path))), w).

(** [pickle.load(open(path, "rb"))] *)
Definition pickle_load (path : string) : io (list bytes) := λ w,
  match files w !! path with
  | Some (Pickled keys) => (inr keys, log (EvLoad path) w)
  | Some Unreadable => (inl UnpicklingError, log (EvLoad path) w)
  | None => (inl UnpicklingError, w)
  end.

(** [pickle.dump(keys, open(path, "wb"))] *)
Definition pickle_dump (keys : list bytes) (path : string) : io unit := λ w,
  (inr (), World (stores w) (<[path := Pickled keys]> (files w))
                 (EvDump path :: trace w)).

(** ** One store: [LSUNClass] *)

Module LSUNClass.

Record t {image : Type} := Build {
  root : string;
  transform : option (image → image);
  target_transform : option (pyval → pyval);
  env : list (bytes * bytes);
  length : nat;
  keys : list bytes
}.
Arguments t : clear implicits.

Definition cache_file (root : string) : string := "_cache_" +:+ letters root.

Section methods.
Context {image : Type}.

Definition __init__ (root : string) (transform : option (image → image))
    (target_transform : option (pyval → pyval)) : io (t image) :=
  env ← lmdb_open root;
  let length := stat_entries env in
  let cache_file := cache_file root in
  cached ← isfile cache_file;
  keys ← (if cached : bool then pickle_load cache_file
          else keys ← cursor_keys root env;
               pickle_dump keys cache_file;;
               mret keys);
  mret (Build image root transform target_transform env length keys).

(** [decode] is [Image.open(buf).convert("RGB")]; it is [None] on bytes
    that are no image.  [buf.write(None)] raises [TypeError]. *)
Definition __getitem__ (decode : bytes → option image) (self : t image)
    (index : Z) : result (image * pyval) :=
  let target := PyNone in
  key ← py_index (keys self) index;
  imgbuf ← from_option ret (raise TypeError) (txn_get (env self) key);
  img ← from_option ret (raise DecodeError) (decode imgbuf);
  let img := from_option (λ f, f img) img (transform self) in
  let target := from_option (λ f, f target) target (target_transform self) in
  ret (img, target).

Definition __len__ (self : t image) : Z := Z.of_nat (length self).

End methods.
End LSUNClass.

(** ** The concatenated dataset: [LSUNCustomDataLoader] *)

Module LSUNCustomDataLoader.

Record t {image : Type} := Build {
  root : string;
  transform : option (image → image);
  target_transform : option (pyval → pyval);
  classes : list pyval;
  dbs : list (LSUNClass.t image);
  indices : list Z;
  length : Z
}.
Arguments t : clear implicits.

Section methods.
Context {image : Type}.

(** [for c in self.classes: self.dbs.append(LSUNClass(root=root, ...))] *)
Fixpoint open_dbs (root : string) (transform : option (image → image))
    (classes : list pyval) (dbs : list (LSUNClass.t image))
  : io (list (LSUNClass.t image)) :=
  match classes with
  | [] => mret dbs
  | _ :: rest =>
    db ← LSUNClass.__init__ root transform None;
    open_dbs root transform rest (dbs ++ [db])
  end.

(** [for db in self.dbs: count += len(db); self.indices.append(count)] *)
Fixpoint boundaries (dbs : list (LSUNClass.t image)) (indices : list Z)
    (count : Z) : list Z * Z :=
  match dbs with
  | [] => (indices, count)
  | db :: rest =>
    let count := count + LSUNClass.__len__ db in
    boundaries rest (indices ++ [count]) count
  end.

Definition __init__ (root : string) (classes : pyval)
    (transform : option (image → image))
    (target_transform : option (pyval → pyval)) : io (t image) :=
  classes ← lift (_verify_classes classes);
  dbs ← open_dbs root transform classes [];
  let '(indices, count) := boundaries dbs [] 0 in
  mret (Build image root transform target_transform classes dbs indices count).

(** [for ind in self.indices: if index < ind: break; target += 1; sub = ind] *)
Fixpoint scan (indices : list Z) (index target sub : Z) : Z * Z :=
  match indices with
  | [] => (target, sub)
  | ind :: rest =>
    if index <? ind then (target, sub)
    else scan rest index (target + 1) ind
  end.

(** The store and the index inside it that [__getitem__] goes to. *)
Definition resolve (self : t image) (index : Z) : Z * Z :=
  let '(target, sub) := scan (indices self) index 0 0 in
  (target, index - sub).

Definition __getitem__ (decode : bytes → option image) (self : t image)
    (index : Z) : result (image * pyval) :=
  let '(target, index) := resolve self index in
  db ← py_index (dbs self) target;
  let target := PyInt target in
  let target := from_option (λ f, f target) target (target_transform self) in
  '(img, _) ← LSUNClass.__getitem__ decode db index;
  ret (img, target).

Definition __len__ (self : t image) : Z := length self.

End methods.
End LSUNCustomDataLoader.

(** ** Vocabulary of the statements *)

Section vocabulary.
Context {image : Type}.

(** The sum of the lengths of the stores. *)
Definition total_length (dbs : list (LSUNClass.t image)) : Z :=
  foldr (λ db n, LSUNClass.__len__ db + n) 0 dbs.

(** The running sums that the loop of [__init__] appends, from [count]. *)
Fixpoint cumsum (count : Z) (dbs : list (LSUNClass.t image)) : list Z :=
  match dbs with
  | [] => []
  | db :: rest =>
    (count + LSUNClass.__len__ db) :: cumsum (count + LSUNClass.__len__ db) rest
  end.

(** The boundary before store [k]: [indices[k - 1]], and 0 for the first. *)
Definition prev_boundary (indices : list Z) (k : nat) : Z :=
  match k with
  | O => 0
  | S k' => default 0 (indices !! k')
  end.

(** A dataset whose boundary table and length are the ones that
    [__init__] computes from its stores. *)
Definition built (d : LSUNCustomDataLoader.t image) : Prop :=
  LSUNCustomDataLoader.boundaries (LSUNCustomDataLoader.dbs d) [] 0
  = (LSUNCustomDataLoader.indices d, LSUNCustomDataLoader.length d).

(** What [__getitem__] returns as the label for the store [target]. *)
Definition label (d : LSUNCustomDataLoader.t image) (target : Z) : pyval :=
  from_option (λ f, f (PyInt target)) (PyInt target)
              (LSUNCustomDataLoader.target_transform d).

(** A store that was opened at [root] in a world with the stores [ss]. *)
Definition opened_at (root : string) (ss : gmap string (list (bytes * bytes)))
    (db : LSUNClass.t image) : Prop :=
  LSUNClass.root db = root
  ∧ ss !! root = Some (LSUNClass.env db)
  ∧ LSUNClass.length db = stat_entries (LSUNClass.env db).

(** What a store returns for an item that decodes to [img]. *)
Definition item_of (db : LSUNClass.t image) (img : image) : image * pyval :=
  (from_option (λ f, f img) img (LSUNClass.transform db),
   from_option (λ f, f PyNone) PyNone (LSUNClass.target_transform db)).

End vocabulary.

(** ** Example data *)

Module Examples.

(** A store of three entries at ["data"], and no cache file yet. *)
Definition sheep_env : list (bytes * bytes) :=
  [("k0", "v0"); ("k1", "v1"); ("k2", "v2")].

Definition fresh_world : world := World {[ "data" := sheep_env ]} ∅ [].

(** A store of two entries, with a cache file that was written when the
    store had one. *)
Definition stale_world : world :=
  World {[ "data" := [("k0", "v0"); ("k1", "v1")] ]}
        {[ "_cache_data" := Pickled ["k0"] ]} [].

Definition sheep_db : LSUNClass.t bytes :=
  LSUNClass.Build bytes "data" None None sheep_env 3 ["k0"; "k1"; "k2"].

(** What [LSUNCustomDataLoader("data", ["sheep_train"])] is in
    [fresh_world], and with two classes. *)
Definition sheep_dataset : LSUNCustomDataLoader.t bytes :=
  LSUNCustomDataLoader.Build bytes "data" None None
    [PyStr "sheep_train"] [sheep_db] [3] 3.

Definition sheep_pair : LSUNCustomDataLoader.t bytes :=
  LSUNCustomDataLoader.Build bytes "data" None None
    [PyStr "sheep_train"; PyStr "sheep_val"] [sheep_db; sheep_db] [3; 6] 6.

(** Two stores with 3 and with 5 entries. *)
Definition store_of (root : string) (env : list (bytes * bytes))
  : LSUNClass.t bytes :=
  LSUNClass.Build bytes root None None env (List.length env) env.*1.

Definition two_stores : LSUNCustomDataLoader.t bytes :=
  LSUNCustomDataLoader.Build bytes "data" None None
    [PyStr "bedroom_train"; PyStr "tower_train"]
    [store_of "a" [("a0", "x0"); ("a1", "x1"); ("a2", "x2")];
     store_of "b" [("b0", "y0"); ("b1", "y1"); ("b2", "y2"); ("b3", "y3");
                   ("b4", "y4")]]
    [3; 8] 8.

End Examples.

(** ** The entry point: [get_lsun_dataloader] *)

(** [[i for i in range(n)]] *)
Definition range (n : Z) : list Z := Z.of_nat <$> seq 0 (Z.to_nat n).

(** [torch.utils.data.Subset], indexed by an integer: item [idx] of the
    subset is item [indices[idx]] of the dataset, and the length is the
    number of indices. *)
Module Subset.

Record t {image : Type} := Build {
  dataset : LSUNCustomDataLoader.t image;
  indices : list Z
}.
Arguments t : clear implicits.

Section methods.
Context {image : Type}.

Definition __getitem__ (decode : bytes → option image) (self : t image)
    (idx : Z) : result (image * pyval) :=
  index ← py_index (indices self) idx;
  LSUNCustomDataLoader.__getitem__ decode (dataset self) index.

Definition __len__ (self : t image) : Z :=
  Z.of_nat (List.length (indices self)).

End methods.
End Subset.

(** What [get_lsun_dataloader] has built when it reaches its [return]:
    the two lengths it has printed and the two subsets.  The [return]
    wraps each subset in a [DataLoader] that shuffles and batches it,
    which is left out here. *)
Record subsets {image : Type} := Subsets {
  printed : list Z;
  sub_lsun_dset : Subset.t image;
  sub_lsun_test : Subset.t image
}.
Arguments subsets : clear implicits.

(** [transform] is the composition of [Resize(64)], [CenterCrop(64)] and
    [ToTensor()]. *)
Definition get_lsun_dataloader {image : Type} (transform : image → image)
    (path_to_data dataset : string) : io (subsets image) :=
  lsun_dset ← LSUNCustomDataLoader.__init__ path_to_data
                (PyList [PyStr dataset]) (Some transform) None;
  let out1 := LSUNCustomDataLoader.__len__ lsun_dset in
  let sub_lsun_dset := Subset.Build image lsun_dset (range 200000) in
  let out2 := Subset.__len__ sub_lsun_dset in
  let sub_lsun_test := Subset.Build image lsun_dset (range 128) in
  mret (Subsets image [out1; out2] sub_lsun_dset sub_lsun_test).

(** ** Counting what was done to the outside *)

Definition is_scan (e : event) : bool :=
  match e with EvScan _ => true | _ => false end.

Definition is_open (e : event) : bool :=
  match e with EvOpen _ => true | _ => false end.

Definition count_events (p : event → bool) (t : list event) : nat :=
  List.length (List.filter p t).

(** The key list that a store at [root] with the entries [env] gets when
    it is opened in the world [w]: the one of the cache file when there is
    one, else the keys of the store. *)
Definition keys_in (w : world) (root : string) (env : list (bytes * bytes))
  : list bytes :=
  match files w !! LSUNClass.cache_file root with
  | Some (Pickled keys) => keys
  | _ => env.*1
  end.

(** What a fetch from a store gives once the value [v] of the key is
    read: the decoded and transformed item with the target, or the error
    of the decoder. *)
Definition fetched {image : Type} (decode : bytes → option image)
    (transform : option (image → image))
    (target_transform : option (pyval → pyval)) (v : bytes)
  : result (image * pyval) :=
  match decode v with
  | Some img =>
    inr (from_option (λ f, f img) img transform,
         from_option (λ f, f PyNone) PyNone target_transform)
  | None => inl DecodeError
  end.

(** ** More example data *)

Module Worlds.

(** Two stores whose roots have the same letters. *)
Definition twin_world : world :=
  World {[ "data/1" := [("a0", "x0")];
           "data/2" := [("b0", "y0"); ("b1", "y1")] ]} ∅ [].

(** A store whose cache file lists a key that the store has lost, and one
    key less than the store has entries. *)
Definition lost_key_world : world :=
  World {[ "data" := [("k0", "v0"); ("k1", "v1"); ("k3", "v3")] ]}
        {[ "_cache_data" := Pickled ["k0"; "k2"] ]} [].

(** A store with a cache file that cannot be read. *)
Definition broken_cache_world : world :=
  World {[ "data" := [("k0", "v0")] ]} {[ "_cache_data" := Unreadable ]} [].

(** A decoder that reads every value but ["v1"]. *)
Definition decode_but_v1 (buf : bytes) : option bytes :=
  if String.eqb buf "v1" then None else Some buf.

End Worlds.

(** * Properties *)

(** ** Strings *)

Lemma split_nonempty sep s : ∃ w ws, split sep s = w :: ws.
Proof.
  destruct s as [|c s]; simpl; [by eauto|].
  destruct (Ascii.eqb c sep); [by eauto|].
  destruct (split sep s); eauto.
Qed.

Lemma split_no_sep sep s : contains sep s = false → split sep s = [s].
Proof.
  induction s as [|c s IH]; simpl; [done|].
  intros [Hc Hs]%orb_false_iff. rewrite Hc, (IH Hs). done.
Qed.

Lemma split_app_sep sep a b :
  contains sep b = false →
  split sep (a +:+ String sep b) = split sep a ++ [b].
Proof.
  intros Hb. induction a as [|c a IH]; simpl.
  - rewrite Ascii.eqb_refl, (split_no_sep _ _ Hb). done.
  - rewrite IH. destruct (Ascii.eqb c sep); [done|].
    destruct (split_nonempty sep a) as (w & ws & ->). done.
Qed.

Lemma join_split sep s : join (String sep "") (split sep s) = s.
Proof.
  induction s as [|c s IH]; simpl; [done|].
  destruct (split_nonempty sep s) as (w & ws & Hs). rewrite Hs in *.
  destruct (Ascii.eqb_spec c sep) as [->|_].
  - simpl in *. by rewrite IH.
  - destruct ws; simpl in *; by rewrite <- IH.
Qed.

Lemma py_init_snoc {A} (l : list A) x : py_init (l ++ [x]) = l.
Proof.
  unfold py_init. rewrite length_app. simpl.
  replace (List.length l + 1 - 1)%nat with (List.length l) by lia.
  by rewrite take_app_length.
Qed.

(** Decide the integer comparisons of the goal, dropping the impossible
    branches. *)
Ltac cmp :=
  repeat match goal with
  | |- context [Z.ltb ?a ?b] => destruct (Z.ltb_spec a b); try lia
  | |- context [Z.leb ?a ?b] => destruct (Z.leb_spec a b); try lia
  end; simpl.

Lemma py_index_nonneg {A} (l : list A) (i : nat) x :
  l !! i = Some x → py_index l (Z.of_nat i) = inr x.
Proof.
  intros Hx. pose proof (lookup_lt_Some _ _ _ Hx) as Hlt.
  unfold py_index. cmp. by rewrite Nat2Z.id, Hx.
Qed.

Lemma py_index_negative {A} (l : list A) (i : Z) :
  - Z.of_nat (List.length l) ≤ i < 0 →
  py_index l i = py_index l (i + Z.of_nat (List.length l)).
Proof. intros Hi. unfold py_index. cmp. done. Qed.

Lemma py_index_below {A} (l : list A) (i : Z) :
  i < - Z.of_nat (List.length l) → py_index l i = inl IndexError.
Proof. intros Hi. unfold py_index. cmp. done. Qed.

Lemma py_index_ge {A} (l : list A) (i : Z) :
  Z.of_nat (List.length l) ≤ i → py_index l i = inl IndexError.
Proof. intros Hi. unfold py_index. cmp. done. Qed.

Lemma py_index_last {A} (l : list A) x : py_index (l ++ [x]) (-1) = inr x.
Proof.
  rewrite py_index_negative by (rewrite length_app; simpl; lia).
  rewrite length_app. simpl.
  replace (-1 + Z.of_nat (List.length l + 1)) with (Z.of_nat (List.length l))
    by lia.
  apply py_index_nonneg, list_lookup_middle. done.
Qed.

Lemma split_class_last_underscore a b :
  contains "_" b = false → split_class (a +:+ "_" +:+ b) = inr (a, b).
Proof.
  intros Hb. unfold split_class. change ("_" +:+ b) with (String "_" b).
  rewrite (split_app_sep _ _ _ Hb), py_init_snoc, py_index_last. simpl.
  by rewrite (join_split "_" a).
Qed.

Lemma split_class_no_underscore c :
  contains "_" c = false → split_class c = inr ("", c).
Proof. intros Hc. unfold split_class. by rewrite (split_no_sep _ _ Hc). Qed.

(** ** Class validation *)

Lemma split_class_total c : ∃ category dset_opt,
  split_class c = inr (category, dset_opt).
Proof.
  unfold split_class.
  destruct (split_nonempty "_" c) as (w & ws & ->).
  destruct (exists_last (l:=w :: ws)) as (l & x & ->); [done|].
  rewrite py_index_last. simpl. eauto.
Qed.

Lemma verify_class_spec c category dset_opt :
  split_class c = inr (category, dset_opt) →
  verify_class (PyStr c) =
    if bool_decide (category ∈ categories) then
      if bool_decide (dset_opt ∈ dset_opts) then inr ()
      else inl (unknown_split dset_opt)
    else inl (unknown_category category).
Proof.
  intros Hc. unfold verify_class. simpl. rewrite Hc. simpl.
  repeat case_bool_decide; done.
Qed.

Lemma verify_class_valid c : valid_class c → verify_class (PyStr c) = inr ().
Proof.
  intros (category & dset_opt & Hc & Hcat & Hopt).
  rewrite (verify_class_spec _ _ _ Hc).
  by rewrite !bool_decide_eq_true_2.
Qed.

Lemma for_each_app {A} (body : A → result unit) l1 l2 :
  for_each body (l1 ++ l2) = (for_each body l1;; for_each body l2).
Proof.
  induction l1 as [|x l1 IH]; simpl; [done|].
  destruct (body x) as [e|[]]; simpl; [done|]. apply IH.
Qed.

Lemma for_each_valid l :
  Forall valid_class l → for_each verify_class (PyStr <$> l) = inr ().
Proof.
  induction 1 as [|c l Hc _ IH]; simpl; [done|].
  by rewrite (verify_class_valid _ Hc).
Qed.

Lemma verify_classes_list l :
  _verify_classes (PyList l) = (for_each verify_class l;; ret l).
Proof. done. Qed.

Lemma split_class_char (c : ascii) :
  ∃ dset_opt, split_class (String c "") = inr ("", dset_opt).
Proof.
  unfold split_class. simpl. destruct (Ascii.eqb c "_"); simpl; eauto.
Qed.

Lemma verify_class_char (c : ascii) :
  verify_class (PyStr (String c "")) = inl (unknown_category "").
Proof.
  destruct (split_class_char c) as (dset_opt & Hc).
  by rewrite (verify_class_spec _ _ _ Hc).
Qed.

(** C5: the split names ["train"] and ["val"] expand to every category of
    the vocabulary, in its order, with the split as postfix, which gives
    as many entries as the vocabulary has; ["test"] expands to the one
    entry ["test"]. *)
Theorem C5_split_name_expansion :
  _verify_classes (PyStr "train")
    = inr ((λ c, PyStr (c +:+ "_train")) <$> categories)
  ∧ _verify_classes (PyStr "val")
    = inr ((λ c, PyStr (c +:+ "_val")) <$> categories)
  ∧ (∀ l, _verify_classes (PyStr "train") = inr l
          ∨ _verify_classes (PyStr "val") = inr l →
          List.length l = List.length categories)
  ∧ _verify_classes (PyStr "test") = inr [PyStr "test"].
Proof.
  repeat split; try reflexivity.
  intros l [H|H]; vm_compute in H; injection H as <-; reflexivity.
Qed.

Lemma C5_split_name_expansion_witness :
  List.length
    [PyStr "sheep_val"; PyStr "bedroom_val"; PyStr "bridge_val";
     PyStr "church_outdoor_val"; PyStr "classroom_val";
     PyStr "conference_room_val"; PyStr "dining_room_val";
     PyStr "kitchen_val"; PyStr "living_room_val"; PyStr "restaurant_val";
     PyStr "tower_val"] = 11%nat.
Proof.
  apply (proj1 (proj2 (proj2 C5_split_name_expansion))).
  right. reflexivity.
Defined.

(** C6: an element of an explicit list is split at its last underscore
    into category and postfix.  The first element whose category is not in
    the vocabulary makes the resolution fail with the error that names
    that category and lists the vocabulary; the first whose postfix is not
    a split makes it fail with the error that names that postfix.  A list
    of valid elements is returned as it is: same order, same length,
    duplicates kept. *)
Theorem C6_explicit_list :
  (∀ c, ∃ category dset_opt, split_class c = inr (category, dset_opt))
  ∧ (∀ a b, contains "_" b = false →
       split_class (a +:+ "_" +:+ b) = inr (a, b))
  ∧ (∀ pre c post category dset_opt,
       Forall valid_class pre →
       split_class c = inr (category, dset_opt) →
       (category ∉ categories →
        _verify_classes (PyList (PyStr <$> pre ++ c :: post))
          = inl (unknown_category category))
       ∧ (category ∈ categories → dset_opt ∉ dset_opts →
          _verify_classes (PyList (PyStr <$> pre ++ c :: post))
            = inl (unknown_split dset_opt)))
  ∧ (∀ v, unknown_category v = ValueError
       ("Unknown value '" +:+ v +:+ "' for LSUN class. Valid values are "
        +:+ "{'sheep', 'bedroom', 'bridge', 'church_outdoor', 'classroom', "
        +:+ "'conference_room', 'dining_room', 'kitchen', 'living_room', "
        +:+ "'restaurant', 'tower'}."))
  ∧ (∀ v, unknown_split v = ValueError
       ("Unknown value '" +:+ v +:+ "' for postfix. Valid values are "
        +:+ "{'train', 'val', 'test'}."))
  ∧ _verify_classes (PyList [PyStr "bedroom_train"; PyStr "nope_val"])
      = inl (unknown_category "nope")
  ∧ (∀ l, Forall valid_class l →
       _verify_classes (PyList (PyStr <$> l)) = inr (PyStr <$> l)).
Proof.
  split; [exact split_class_total|].
  split; [exact split_class_last_underscore|].
  split.
  { intros pre c post category dset_opt Hpre Hc.
    rewrite verify_classes_list, fmap_app, for_each_app.
    rewrite (for_each_valid pre Hpre).
    simpl. rewrite (verify_class_spec _ _ _ Hc).
    split.
    - intros Hcat. by rewrite bool_decide_eq_false_2.
    - intros Hcat Hopt.
      by rewrite bool_decide_eq_true_2, bool_decide_eq_false_2. }
  split; [reflexivity|]. split; [reflexivity|]. split; [reflexivity|].
  intros l Hl. by rewrite verify_classes_list, for_each_valid.
Qed.

Lemma C6_explicit_list_witness :
  _verify_classes
    (PyList (PyStr <$> ["bedroom_train"; "bedroom_train"] ++ "kitchen_vl" :: []))
  = inl (unknown_split "vl")
  ∧ _verify_classes
      (PyList (PyStr <$> ["tower_val"; "church_outdoor_train"; "tower_val"]))
    = inr (PyStr <$> ["tower_val"; "church_outdoor_train"; "tower_val"]).
Proof.
  assert (∀ c category dset_opt,
    split_class c = inr (category, dset_opt) →
    bool_decide (category ∈ categories) = true →
    bool_decide (dset_opt ∈ dset_opts) = true → valid_class c) as Hv.
  { intros c category dset_opt Hc H1%bool_decide_eq_true H2%bool_decide_eq_true.
    by exists category, dset_opt. }
  destruct C6_explicit_list as (_ & _ & Hfail & _ & _ & _ & Hok).
  split.
  - apply (Hfail ["bedroom_train"; "bedroom_train"] "kitchen_vl" []
             "kitchen" "vl").
    + repeat constructor; by apply (Hv _ "bedroom" "train").
    + reflexivity.
    + by apply (bool_decide_unpack _).
    + by apply (bool_decide_unpack _).
  - apply Hok.
    repeat constructor;
      [by apply (Hv _ "tower" "val")
      |by apply (Hv _ "church_outdoor" "train")
      |by apply (Hv _ "tower" "val")].
Defined.

(** C10 does not hold for the empty string, which is no split name and
    still resolves, to the empty list. *)
Lemma C10_counterexample :
  ¬ ("" ∉ dset_opts → ∃ e, _verify_classes (PyStr "") = inl e).
Proof.
  intros H. destruct H as [e He].
  - by apply (bool_decide_unpack _).
  - discriminate He.
Qed.

(** C10, amended: a string that is not empty and is none of ["train"],
    ["val"], ["test"] is not rejected as an invalid split name: it is
    read as the list of its characters, and the resolution fails at the
    first of them, with the error of the category validation, whose
    message names the empty category and not the string. *)
Theorem C10_string_read_as_characters (c : ascii) (rest : string) :
  String c rest ∉ dset_opts →
  py_list (PyStr (String c rest))
    = PyStr (String c "") :: (PyStr <$> chars rest)
  ∧ _verify_classes (PyStr (String c rest))
    = (for_each verify_class (py_list (PyStr (String c rest)));;
       ret (py_list (PyStr (String c rest))))
  ∧ verify_class (PyStr (String c "")) = inl (unknown_category "")
  ∧ _verify_classes (PyStr (String c rest)) = inl (unknown_category "").
Proof.
  intros Hs.
  assert (_verify_classes (PyStr (String c rest))
    = (for_each verify_class (py_list (PyStr (String c rest)));;
       ret (py_list (PyStr (String c rest))))) as Hv.
  { unfold _verify_classes, verify_str_arg.
    by rewrite bool_decide_eq_false_2. }
  split; [done|]. split; [done|]. split; [apply verify_class_char|].
  rewrite Hv. cbn [py_list chars fmap list_fmap for_each].
  by rewrite verify_class_char.
Qed.

Lemma C10_string_read_as_characters_witness :
  _verify_classes (PyStr "bedroom_train") = inl (unknown_category "").
Proof.
  apply (C10_string_read_as_characters "b" "edroom_train").
  by apply (bool_decide_unpack _).
Defined.

(** ** The boundary table and the scan *)

Section index.
Context {image : Type}.
Implicit Types (db : LSUNClass.t image) (dbs : list (LSUNClass.t image)).
Implicit Types (d : LSUNCustomDataLoader.t image).

Import LSUNCustomDataLoader.

Lemma len_nonneg db : 0 ≤ LSUNClass.__len__ db.
Proof. unfold LSUNClass.__len__. lia. Qed.

Lemma total_length_nonneg dbs : 0 ≤ total_length dbs.
Proof.
  induction dbs as [|db dbs IH]; simpl; [done|].
  pose proof (len_nonneg db). lia.
Qed.

Lemma total_length_app dbs1 dbs2 :
  total_length (dbs1 ++ dbs2) = total_length dbs1 + total_length dbs2.
Proof. induction dbs1 as [|db dbs1 IH]; simpl; lia. Qed.

Lemma boundaries_cumsum dbs acc count :
  boundaries dbs acc count
  = (acc ++ cumsum count dbs, count + total_length dbs).
Proof.
  revert acc count. induction dbs as [|db dbs IH]; intros acc count; simpl.
  - by rewrite app_nil_r, Z.add_0_r.
  - rewrite IH, <- app_assoc. simpl. f_equal. lia.
Qed.

Lemma cumsum_length count dbs : List.length (cumsum count dbs) = List.length dbs.
Proof. revert count. induction dbs; intros; simpl; auto. Qed.

Lemma cumsum_lookup count dbs k db :
  dbs !! k = Some db →
  cumsum count dbs !! k = Some (count + total_length (take (S k) dbs)).
Proof.
  revert count k. induction dbs as [|db' dbs IH]; intros count k Hk; [done|].
  destruct k as [|k]; simpl in *.
  - injection Hk as ->. f_equal. lia.
  - rewrite (IH _ _ Hk). f_equal. simpl. lia.
Qed.

Lemma total_length_take_S dbs k db :
  dbs !! k = Some db →
  total_length (take (S k) dbs)
  = total_length (take k dbs) + LSUNClass.__len__ db.
Proof.
  intros Hk. rewrite (take_S_r _ _ _ Hk), total_length_app. simpl. lia.
Qed.

Lemma total_length_take_le dbs k :
  total_length (take k dbs) ≤ total_length dbs.
Proof.
  rewrite <- (take_drop k dbs) at 2. rewrite total_length_app.
  pose proof (total_length_nonneg (drop k dbs)). lia.
Qed.

Lemma total_length_take_mono dbs k k' :
  (k ≤ k')%nat → total_length (take k dbs) ≤ total_length (take k' dbs).
Proof.
  intros Hk. replace (take k dbs) with (take k (take k' dbs)).
  - apply total_length_take_le.
  - rewrite take_take. f_equal. lia.
Qed.

(** Inside the range, the scan stops at the store that holds the index. *)
Lemma scan_inside dbs count target index :
  count ≤ index < count + total_length dbs →
  ∃ k db, dbs !! k = Some db
    ∧ scan (cumsum count dbs) index target count
      = (target + Z.of_nat k, count + total_length (take k dbs))
    ∧ count + total_length (take k dbs) ≤ index
      < count + total_length (take k dbs) + LSUNClass.__len__ db.
Proof.
  revert count target.
  induction dbs as [|db dbs IH]; intros count target Hi; simpl in *; [lia|].
  destruct (Z.ltb_spec index (count + LSUNClass.__len__ db)) as [Hlt|Hge].
  - exists 0%nat, db. simpl. split; [done|]. split; [f_equal; lia|lia].
  - destruct (IH (count + LSUNClass.__len__ db) (target + 1)) as
      (k & db' & Hk & Hscan & Hrange); [lia|].
    exists (S k), db'. simpl. split; [done|]. rewrite Hscan.
    split; [f_equal; lia|lia].
Qed.

(** Past the end, the scan runs through the whole table. *)
Lemma scan_past dbs count target index :
  count + total_length dbs ≤ index →
  scan (cumsum count dbs) index target count
  = (target + Z.of_nat (List.length dbs), count + total_length dbs).
Proof.
  revert count target.
  induction dbs as [|db dbs IH]; intros count target Hi; simpl in *.
  - f_equal; lia.
  - pose proof (total_length_nonneg dbs). pose proof (len_nonneg db).
    destruct (Z.ltb_spec index (count + LSUNClass.__len__ db)); [lia|].
    rewrite IH by lia. f_equal; lia.
Qed.

(** Before the start, the scan stops at once. *)
Lemma scan_before dbs count target index :
  index < count →
  scan (cumsum count dbs) index target count = (target, count).
Proof.
  intros Hi. destruct dbs as [|db dbs]; simpl; [done|].
  pose proof (len_nonneg db).
  destruct (Z.ltb_spec index (count + LSUNClass.__len__ db)); [done|lia].
Qed.

Lemma built_indices d :
  built d →
  indices d = cumsum 0 (dbs d) ∧ length d = total_length (dbs d).
Proof.
  unfold built. rewrite boundaries_cumsum. simpl. intros [= <- <-]. done.
Qed.

Lemma built_prev_boundary d k :
  built d → (k ≤ List.length (dbs d))%nat →
  prev_boundary (indices d) k = total_length (take k (dbs d)).
Proof.
  intros [-> _]%built_indices Hk. destruct k as [|k]; simpl; [done|].
  destruct (lookup_lt_is_Some_2 (dbs d) k) as [db Hdb]; [lia|].
  rewrite (cumsum_lookup _ _ _ _ Hdb). simpl.
  by rewrite (take_S_r _ _ _ Hdb).
Qed.

Lemma resolve_inside d index :
  built d → 0 ≤ index < __len__ d →
  ∃ k db, dbs d !! k = Some db
    ∧ resolve d index = (Z.of_nat k, index - prev_boundary (indices d) k)
    ∧ 0 ≤ index - prev_boundary (indices d) k < LSUNClass.__len__ db.
Proof.
  intros Hd Hi. destruct (built_indices d Hd) as [Hind Hlen].
  unfold __len__ in Hi. rewrite Hlen in Hi.
  destruct (scan_inside (dbs d) 0 0 index) as (k & db & Hk & Hscan & Hrange);
    [lia|].
  exists k, db. split; [done|].
  rewrite (built_prev_boundary d k Hd)
    by (apply Nat.lt_le_incl, (lookup_lt_Some _ _ _ Hk)).
  unfold resolve. rewrite Hind, Hscan. split; [f_equal; lia|lia].
Qed.

Lemma resolve_store d k db l :
  built d → dbs d !! k = Some db → 0 ≤ l < LSUNClass.__len__ db →
  0 ≤ prev_boundary (indices d) k + l < __len__ d
  ∧ resolve d (prev_boundary (indices d) k + l) = (Z.of_nat k, l).
Proof.
  intros Hd Hk Hl. pose proof (lookup_lt_Some _ _ _ Hk) as Hlt.
  pose proof (built_prev_boundary d k Hd (Nat.lt_le_incl _ _ Hlt)) as Hb.
  pose proof (total_length_take_S _ _ _ Hk) as HS.
  pose proof (total_length_nonneg (take k (dbs d))) as H0.
  pose proof (total_length_take_le (dbs d) (S k)) as Hle.
  destruct (built_indices d Hd) as [_ Hlen].
  assert (0 ≤ prev_boundary (indices d) k + l < __len__ d) as Hi
    by (unfold __len__; lia).
  split; [done|].
  destruct (resolve_inside d _ Hd Hi) as (k' & db' & Hk' & -> & Hl').
  pose proof (lookup_lt_Some _ _ _ Hk') as Hlt'.
  rewrite (built_prev_boundary d k' Hd (Nat.lt_le_incl _ _ Hlt')) in *.
  pose proof (total_length_take_S _ _ _ Hk') as HS'.
  destruct (Nat.lt_trichotomy k k') as [Hkk|[<-|Hkk]].
  - pose proof (total_length_take_mono (dbs d) (S k) k'). lia.
  - f_equal. lia.
  - pose proof (total_length_take_mono (dbs d) (S k') k). lia.
Qed.

(** C1: on a dataset with the boundary table of [__init__], the scan of
    [__getitem__] sends every global index of the range to a store that
    exists and to a local index inside that store, which is the global
    index minus the boundary before the store (0 for the first store).
    Two global indices of the range never go to the same place, and every
    local index of every store is reached, from the global index that is
    the boundary before the store plus the local index. *)
Theorem C1_resolve_bijection d :
  built d →
  (∀ i, 0 ≤ i < __len__ d →
     ∃ k db, dbs d !! k = Some db
       ∧ resolve d i = (Z.of_nat k, i - prev_boundary (indices d) k)
       ∧ 0 ≤ i - prev_boundary (indices d) k < LSUNClass.__len__ db)
  ∧ (∀ i j, 0 ≤ i < __len__ d → 0 ≤ j < __len__ d →
       resolve d i = resolve d j → i = j)
  ∧ (∀ k db l, dbs d !! k = Some db → 0 ≤ l < LSUNClass.__len__ db →
       0 ≤ prev_boundary (indices d) k + l < __len__ d
       ∧ resolve d (prev_boundary (indices d) k + l) = (Z.of_nat k, l)).
Proof.
  intros Hd. split; [|split].
  - intros i Hi. by apply resolve_inside.
  - intros i j Hi Hj Heq.
    destruct (resolve_inside d i Hd Hi) as (k & _ & _ & Hri & _).
    destruct (resolve_inside d j Hd Hj) as (k' & _ & _ & Hrj & _).
    rewrite Hri, Hrj in Heq. injection Heq as Hk Hl.
    apply Nat2Z.inj in Hk as <-. lia.
  - intros k db l. by apply resolve_store.
Qed.

(** C4: the boundary table of [__init__] has one entry for each store;
    each entry minus the entry before it (minus 0 for the first) is the
    length of its store; the last entry is the sum of the lengths of all
    the stores; and [__len__] returns that sum, so the last entry. *)
Theorem C4_boundary_table d :
  built d →
  List.length (indices d) = List.length (dbs d)
  ∧ (∀ k db, dbs d !! k = Some db →
       ∃ b, indices d !! k = Some b
         ∧ b - prev_boundary (indices d) k = LSUNClass.__len__ db)
  ∧ (dbs d ≠ [] → last (indices d) = Some (total_length (dbs d)))
  ∧ __len__ d = total_length (dbs d)
  ∧ (∀ b, last (indices d) = Some b → __len__ d = b).
Proof.
  intros Hd. destruct (built_indices d Hd) as [Hind Hlen].
  assert (List.length (indices d) = List.length (dbs d)) as Hsize
    by (rewrite Hind; apply cumsum_length).
  assert (dbs d ≠ [] → last (indices d) = Some (total_length (dbs d)))
    as Hlast.
  { intros Hne. rewrite last_lookup, Hsize.
    destruct (dbs d) as [|db0 dbs0] eqn:Hdbs; [done|].
    destruct (lookup_lt_is_Some_2 (db0 :: dbs0) (List.length dbs0))
      as [db Hdb]; [simpl; lia|].
    rewrite Hind. simpl pred. rewrite (cumsum_lookup _ _ _ _ Hdb).
    change (S (List.length dbs0)) with (List.length (db0 :: dbs0)).
    by rewrite firstn_all. }
  split; [done|]. split; [|split; [done|split; [done|]]].
  - intros k db Hk. pose proof (lookup_lt_Some _ _ _ Hk) as Hlt.
    rewrite (built_prev_boundary d k Hd (Nat.lt_le_incl _ _ Hlt)).
    rewrite Hind, (cumsum_lookup _ _ _ _ Hk). eexists. split; [done|].
    rewrite (total_length_take_S _ _ _ Hk). lia.
  - intros b Hb. destruct (decide (dbs d = [])) as [Hnil|Hne].
    + rewrite Hind, Hnil in Hb. done.
    + rewrite (Hlast Hne) in Hb. injection Hb as <-. done.
Qed.

End index.

(** ** Opening a store *)

Section open.
Context {image : Type}.
Implicit Types (w : world) (transform : option (image → image)).
Implicit Types (target_transform : option (pyval → pyval)).

(** What [LSUNClass.__init__] does, by the state of the world. *)
Lemma LSUNClass_init_spec root transform target_transform w :
  LSUNClass.__init__ root transform target_transform w =
  match stores w !! root with
  | None => (inl LmdbError, w)
  | Some env =>
    let cache_file := LSUNClass.cache_file root in
    match files w !! cache_file with
    | None =>
      (inr (LSUNClass.Build image root transform target_transform env
              (List.length env) env.*1),
       World (stores w) (<[cache_file := Pickled env.*1]> (files w))
             (EvDump cache_file :: EvScan root :: EvOpen root :: trace w))
    | Some (Pickled keys) =>
      (inr (LSUNClass.Build image root transform target_transform env
              (List.length env) keys),
       World (stores w) (files w)
             (EvLoad cache_file :: EvOpen root :: trace w))
    | Some Unreadable =>
      (inl UnpicklingError,
       World (stores w) (files w)
             (EvLoad cache_file :: EvOpen root :: trace w))
    end
  end.
Proof.
  unfold LSUNClass.__init__, mbind, io_bind, lmdb_open.
  destruct (stores w !! root) as [env|]; [|done].
  unfold isfile, pickle_load, cursor_keys, pickle_dump, mbind, io_bind, log.
  simpl. destruct (files w !! LSUNClass.cache_file root) as [[keys|]|] eqn:Hf.
  - rewrite bool_decide_eq_true_2 by eauto. simpl. by rewrite Hf.
  - rewrite bool_decide_eq_true_2 by eauto. simpl. by rewrite Hf.
  - rewrite bool_decide_eq_false_2 by (intros [? ?]; done). done.
Qed.

Lemma LSUNClass_init_hit root transform target_transform w env keys :
  stores w !! root = Some env →
  files w !! LSUNClass.cache_file root = Some (Pickled keys) →
  LSUNClass.__init__ root transform target_transform w =
  (inr (LSUNClass.Build image root transform target_transform env
          (List.length env) keys),
   World (stores w) (files w)
         (EvLoad (LSUNClass.cache_file root) :: EvOpen root :: trace w)).
Proof.
  intros Hs Hc. rewrite LSUNClass_init_spec, Hs. cbv zeta. by rewrite Hc.
Qed.

Lemma LSUNClass_init_miss root transform target_transform w env :
  stores w !! root = Some env →
  files w !! LSUNClass.cache_file root = None →
  LSUNClass.__init__ root transform target_transform w =
  (inr (LSUNClass.Build image root transform target_transform env
          (List.length env) env.*1),
   World (stores w)
         (<[LSUNClass.cache_file root := Pickled env.*1]> (files w))
         (EvDump (LSUNClass.cache_file root) :: EvScan root :: EvOpen root
          :: trace w)).
Proof.
  intros Hs Hc. rewrite LSUNClass_init_spec, Hs. cbv zeta. by rewrite Hc.
Qed.

(** C8: where there is a store at the root and the cache file, if there
    is one, can be read, opening the store twice succeeds twice with the
    same key list.  After the first opening the cache file holds that key
    list.  On a cache miss the first opening enumerates the keys of the
    store in cursor order and writes them to the cache file; the second
    opening reads the cache file and enumerates nothing. *)
Theorem C8_load_or_build_idempotent root transform target_transform w env :
  stores w !! root = Some env →
  files w !! LSUNClass.cache_file root ≠ Some Unreadable →
  ∃ h1 w1 h2 w2,
    LSUNClass.__init__ root transform target_transform w = (inr h1, w1)
    ∧ LSUNClass.__init__ root transform target_transform w1 = (inr h2, w2)
    ∧ LSUNClass.keys h2 = LSUNClass.keys h1
    ∧ files w1 !! LSUNClass.cache_file root
      = Some (Pickled (LSUNClass.keys h1))
    ∧ trace w2
      = EvLoad (LSUNClass.cache_file root) :: EvOpen root :: trace w1
    ∧ (files w !! LSUNClass.cache_file root = None →
       LSUNClass.keys h1 = env.*1
       ∧ trace w1 = EvDump (LSUNClass.cache_file root) :: EvScan root
                    :: EvOpen root :: trace w)
    ∧ (∀ keys, files w !! LSUNClass.cache_file root = Some (Pickled keys) →
       LSUNClass.keys h1 = keys
       ∧ trace w1 = EvLoad (LSUNClass.cache_file root) :: EvOpen root
                    :: trace w).
Proof.
  intros Hs Hf.
  destruct (files w !! LSUNClass.cache_file root) as [[keys|]|] eqn:Hc;
    [|done|].
  - rewrite (LSUNClass_init_hit _ _ _ _ _ _ Hs Hc). do 2 eexists.
    eexists _, _. split; [done|].
    split; [by apply (LSUNClass_init_hit _ _ _ _ env keys)|].
    simpl. repeat split; try done. congruence.
  - rewrite (LSUNClass_init_miss _ _ _ _ _ Hs Hc). do 2 eexists.
    eexists _, _. split; [done|].
    split; [apply (LSUNClass_init_hit _ _ _ _ env env.*1); [done|];
            apply lookup_insert_eq|].
    simpl. repeat split; try done. apply lookup_insert_eq.
Qed.

(** C3 does not hold where the cache file is older than the store: the
    store opens, with a count of 2 and a key list of length 1. *)
Lemma C3_counterexample :
  ∃ h w', LSUNClass.__init__ (image:=bytes) "data" None None
            Examples.stale_world = (inr h, w')
    ∧ LSUNClass.length h = 2%nat
    ∧ List.length (LSUNClass.keys h) = 1%nat.
Proof. do 2 eexists. split; [vm_compute; reflexivity|]. split; reflexivity. Qed.

(** C3, amended: the count of a store is the number of entries that the
    store reports when it is opened.  When there is no cache file the key
    list is built from the store and has that length.  When there is a
    cache file its key list is taken as it is: the store opens with that
    key list whatever its length, and the two are not compared. *)
Theorem C3_count_and_keys root transform target_transform w env :
  stores w !! root = Some env →
  (files w !! LSUNClass.cache_file root = None →
   ∃ h w', LSUNClass.__init__ root transform target_transform w = (inr h, w')
     ∧ LSUNClass.length h = stat_entries env
     ∧ LSUNClass.keys h = env.*1
     ∧ List.length (LSUNClass.keys h) = LSUNClass.length h)
  ∧ (∀ keys, files w !! LSUNClass.cache_file root = Some (Pickled keys) →
     ∃ h w', LSUNClass.__init__ root transform target_transform w = (inr h, w')
       ∧ LSUNClass.length h = stat_entries env
       ∧ LSUNClass.keys h = keys).
Proof.
  intros Hs.
  split.
  - intros Hc. rewrite (LSUNClass_init_miss _ _ _ _ _ Hs Hc).
    do 2 eexists. repeat split. simpl. by rewrite length_fmap.
  - intros keys Hc. rewrite (LSUNClass_init_hit _ _ _ _ _ _ Hs Hc).
    do 2 eexists. repeat split.
Qed.

End open.

(** ** Building the dataset *)

Section build.
Context {image : Type}.
Implicit Types (w : world) (transform : option (image → image)).
Implicit Types (db : LSUNClass.t image) (dbs : list (LSUNClass.t image)).

Import LSUNCustomDataLoader.

Lemma LSUNClass_init_inv root transform target_transform w db w' :
  LSUNClass.__init__ root transform target_transform w = (inr db, w') →
  opened_at root (stores w) db ∧ stores w' = stores w
  ∧ is_Some (files w' !! LSUNClass.cache_file root)
  ∧ files w' !! LSUNClass.cache_file root ≠ Some Unreadable.
Proof.
  rewrite LSUNClass_init_spec. cbv zeta.
  destruct (stores w !! root) as [env|] eqn:Hs; [|done].
  destruct (files w !! LSUNClass.cache_file root) as [[keys|]|] eqn:Hc;
    intros [= <- <-]; simpl; unfold opened_at; simpl;
    rewrite ?lookup_insert_eq, ?Hc; eauto 10.
Qed.

Lemma open_dbs_inv root transform classes acc w dbs w' :
  open_dbs root transform classes acc w = (inr dbs, w') →
  ∃ new, dbs = acc ++ new
    ∧ List.length new = List.length classes
    ∧ Forall (opened_at root (stores w)) new
    ∧ stores w' = stores w.
Proof.
  revert acc w. induction classes as [|c classes IH]; intros acc w; simpl.
  - intros [= <- <-]. exists []. by rewrite app_nil_r.
  - unfold mbind, io_bind.
    destruct (LSUNClass.__init__ root transform None w) as [[e|db] w1] eqn:Hinit;
      [done|].
    apply LSUNClass_init_inv in Hinit as (Hdb & Hs1 & _).
    intros (new & -> & Hlen & Hall & Hs')%IH.
    exists (db :: new). rewrite <- app_assoc. simpl. rewrite Hs1 in *.
    repeat split; auto.
Qed.

(** Opening succeeds where the store is there and the cache file can be
    read or is not there. *)
Lemma open_dbs_ok root transform classes acc w env :
  stores w !! root = Some env →
  files w !! LSUNClass.cache_file root ≠ Some Unreadable →
  ∃ dbs w', open_dbs root transform classes acc w = (inr dbs, w').
Proof.
  revert acc w. induction classes as [|c classes IH]; intros acc w Hs Hc; simpl.
  - by eauto.
  - unfold mbind, io_bind.
    destruct (files w !! LSUNClass.cache_file root) as [[keys|]|] eqn:Hf;
      [|done|].
    + rewrite (LSUNClass_init_hit _ _ _ _ _ _ Hs Hf).
      apply (IH _ _); simpl; [done|by rewrite Hf].
    + rewrite (LSUNClass_init_miss _ _ _ _ _ Hs Hf).
      apply (IH _ _); simpl; [done|by rewrite lookup_insert_eq].
Qed.

Lemma total_length_same dbs n :
  Forall (λ db, LSUNClass.__len__ db = n) dbs →
  total_length dbs = Z.of_nat (List.length dbs) * n.
Proof. induction 1 as [|db dbs Hdb _ IH]; simpl; lia. Qed.

Lemma init_inv root classes transform target_transform w d w' :
  __init__ root classes transform target_transform w = (inr d, w') →
  _verify_classes classes = inr (LSUNCustomDataLoader.classes d)
  ∧ open_dbs root transform (LSUNCustomDataLoader.classes d) [] w
    = (inr (dbs d), w')
  ∧ built d
  ∧ LSUNCustomDataLoader.target_transform d = target_transform.
Proof.
  unfold __init__, mbind, io_bind, lift.
  destruct (_verify_classes classes) as [e|cl]; [done|].
  destruct (open_dbs root transform cl [] w) as [[e|dbs] w1] eqn:Hopen;
    [done|].
  unfold built.
  destruct (boundaries dbs [] 0) as [indices count] eqn:Hb.
  unfold mret, io_ret. intros [= <- <-]. done.
Qed.

(** C9: every store of the dataset is opened at the one root that the
    dataset is given, whatever the class it stands for.  So the dataset
    has as many stores as classes, all of the length of the store at the
    root, and its length is the number of classes times the number of
    entries of that store.  Where the classes are valid, the store is
    there and the cache file is readable or not there, the dataset is
    built. *)
Theorem C9_all_stores_at_root root classes transform target_transform w :
  (∀ d w', __init__ root classes transform target_transform w = (inr d, w') →
     _verify_classes classes = inr (LSUNCustomDataLoader.classes d)
     ∧ List.length (dbs d) = List.length (LSUNCustomDataLoader.classes d)
     ∧ (∀ db, db ∈ dbs d →
          LSUNClass.root db = root
          ∧ stores w !! root = Some (LSUNClass.env db)
          ∧ LSUNClass.length db = stat_entries (LSUNClass.env db))
     ∧ (∀ db1 db2, db1 ∈ dbs d → db2 ∈ dbs d →
          LSUNClass.__len__ db1 = LSUNClass.__len__ db2)
     ∧ (∀ env, stores w !! root = Some env →
          __len__ d = Z.of_nat (List.length (LSUNCustomDataLoader.classes d))
                      * Z.of_nat (stat_entries env))
     ∧ (stores w !! root = None →
          LSUNCustomDataLoader.classes d = [] ∧ __len__ d = 0))
  ∧ (∀ cl env, _verify_classes classes = inr cl →
       stores w !! root = Some env →
       files w !! LSUNClass.cache_file root ≠ Some Unreadable →
       ∃ d w', __init__ root classes transform target_transform w
               = (inr d, w')).
Proof.
  split.
  - intros d w' (Hcl & Hopen & Hd & _)%init_inv.
    apply open_dbs_inv in Hopen as (new & Hdbs & Hlen & Hall & _).
    simpl in Hdbs. subst new.
    destruct (built_indices d Hd) as [_ Htotal].
    assert (∀ env, stores w !! root = Some env →
      Forall (λ db, LSUNClass.__len__ db = Z.of_nat (stat_entries env)) (dbs d))
      as Hsame.
    { intros env Hs. eapply Forall_impl; [exact Hall|].
      intros db (_ & Henv & Hl). unfold LSUNClass.__len__.
      rewrite Hl. congruence. }
    split; [done|]. split; [done|]. split; [|split; [|split]].
    + intros db Hdb. by apply (proj1 (Forall_forall _ _) Hall).
    + intros db1 db2 H1 H2.
      destruct (proj1 (Forall_forall _ _) Hall db1 H1) as (_ & Hs & _).
      pose proof (proj1 (Forall_forall _ _) (Hsame _ Hs)) as Hf.
      by rewrite (Hf db1 H1), (Hf db2 H2).
    + intros env Hs. unfold __len__.
      by rewrite Htotal, (total_length_same _ _ (Hsame env Hs)), Hlen.
    + intros Hs. destruct (dbs d) as [|db dbs0] eqn:Hdbs.
      * unfold __len__. rewrite Htotal. split; [|done].
        by apply nil_length_inv.
      * apply Forall_cons in Hall as [(_ & Henv & _) _]. congruence.
  - intros cl env Hcl Hs Hc. unfold __init__, mbind, io_bind, lift.
    rewrite Hcl.
    destruct (open_dbs_ok root transform cl [] w env Hs Hc) as (dbs & w' & ->).
    destruct (boundaries dbs [] 0). eauto.
Qed.

End build.

(** ** Fetching an item *)

Section fetch.
Context {image : Type} (decode : bytes → option image).
Implicit Types (db : LSUNClass.t image) (d : LSUNCustomDataLoader.t image).

Import LSUNCustomDataLoader.

Lemma LSUNClass_getitem_key db index key buf img :
  py_index (LSUNClass.keys db) index = inr key →
  txn_get (LSUNClass.env db) key = Some buf →
  decode buf = Some img →
  LSUNClass.__getitem__ decode db index = inr (item_of db img).
Proof.
  intros Hkey Hbuf Himg. unfold LSUNClass.__getitem__.
  rewrite Hkey. simpl. rewrite Hbuf. simpl. rewrite Himg. done.
Qed.

Lemma LSUNClass_getitem_below db index :
  index < - Z.of_nat (List.length (LSUNClass.keys db)) →
  LSUNClass.__getitem__ decode db index = inl IndexError.
Proof.
  intros Hi. unfold LSUNClass.__getitem__. by rewrite py_index_below.
Qed.

(** Once the scan has chosen a store that exists, the item comes from
    that store and the label from its position. *)
Lemma getitem_resolved d index k l db :
  resolve d index = (Z.of_nat k, l) → dbs d !! k = Some db →
  __getitem__ decode d index
  = ('(img, _) ← LSUNClass.__getitem__ decode db l;
     ret (img, label d (Z.of_nat k))).
Proof.
  intros Hr Hk. unfold __getitem__. rewrite Hr.
  by rewrite (py_index_nonneg _ _ _ Hk).
Qed.

Lemma resolve_past d index :
  built d → __len__ d ≤ index →
  resolve d index
  = (Z.of_nat (List.length (dbs d)), index - total_length (dbs d)).
Proof.
  intros [Hind Hlen]%built_indices Hi. unfold __len__ in Hi.
  unfold resolve. rewrite Hind, scan_past by lia. done.
Qed.

Lemma resolve_negative d index :
  built d → index < 0 → resolve d index = (0, index).
Proof.
  intros [Hind Hlen]%built_indices Hi.
  unfold resolve. rewrite Hind, scan_before by lia. f_equal. lia.
Qed.

Lemma getitem_past d index :
  built d → __len__ d ≤ index → __getitem__ decode d index = inl IndexError.
Proof.
  intros Hd Hi. unfold __getitem__. rewrite (resolve_past d index Hd Hi).
  by rewrite py_index_ge.
Qed.

(** An index inside [-len, len) has an element. *)
Lemma py_index_inside {A} (l : list A) (i : Z) :
  - Z.of_nat (List.length l) ≤ i < Z.of_nat (List.length l) →
  ∃ x, py_index l i = inr x.
Proof.
  intros Hi. unfold py_index. cmp.
  - destruct (lookup_lt_is_Some_2 l (Z.to_nat (i + Z.of_nat (List.length l))))
      as [x ->]; [lia|]. by exists x.
  - destruct (lookup_lt_is_Some_2 l (Z.to_nat i)) as [x ->]; [lia|].
    by exists x.
Qed.

(** A store raises [IndexError] for no index that its key list has. *)
Lemma LSUNClass_getitem_inside db index :
  - Z.of_nat (List.length (LSUNClass.keys db)) ≤ index
    < Z.of_nat (List.length (LSUNClass.keys db)) →
  ∀ r, LSUNClass.__getitem__ decode db index = r → r ≠ inl IndexError.
Proof.
  intros Hi r <-. unfold LSUNClass.__getitem__.
  destruct (py_index_inside (LSUNClass.keys db) index Hi) as [key ->]. simpl.
  destruct (txn_get (LSUNClass.env db) key) as [buf|]; simpl; [|done].
  by destruct (decode buf).
Qed.

(** C2, amended: a global index that is not below the length of the
    dataset fails with [IndexError].  A negative global index is not
    rejected by the dataset: the scan sends it to store 0 with the same
    negative local index, so the fetch fails with [IndexError] where there
    is no store and where the index is below minus the number of keys of
    store 0, and only there: otherwise it reads store 0 from the end of
    its key list and never fails with [IndexError]; index -1 returns the
    item of the last key of store 0, with the label of store 0. *)
Theorem C2_out_of_range d :
  built d →
  (∀ i, __len__ d ≤ i → __getitem__ decode d i = inl IndexError)
  ∧ (∀ i, i < 0 → resolve d i = (0, i))
  ∧ (∀ i, i < 0 → dbs d = [] → __getitem__ decode d i = inl IndexError)
  ∧ (∀ i db0 rest, i < 0 → dbs d = db0 :: rest →
       __getitem__ decode d i
       = ('(img, _) ← LSUNClass.__getitem__ decode db0 i;
          ret (img, label d 0))
       ∧ (i < - Z.of_nat (List.length (LSUNClass.keys db0)) →
          __getitem__ decode d i = inl IndexError)
       ∧ (∀ keys key buf img,
            i = -1 → LSUNClass.keys db0 = keys ++ [key] →
            txn_get (LSUNClass.env db0) key = Some buf →
            decode buf = Some img →
            __getitem__ decode d i = inr (fst (item_of db0 img), label d 0)))
  ∧ (∀ i db0 rest, i < 0 → dbs d = db0 :: rest →
       - Z.of_nat (List.length (LSUNClass.keys db0)) ≤ i →
       __getitem__ decode d i ≠ inl IndexError
       ∧ __getitem__ decode d i
         = ('(img, _) ← LSUNClass.__getitem__ decode db0
                          (i + Z.of_nat (List.length (LSUNClass.keys db0)));
            ret (img, label d 0)))
  ∧ (∀ i, i < 0 →
       __getitem__ decode d i = inl IndexError
       ↔ dbs d = []
         ∨ ∃ db0 rest, dbs d = db0 :: rest
             ∧ i < - Z.of_nat (List.length (LSUNClass.keys db0))).
Proof.
  intros Hd.
  assert (∀ i, i < 0 → dbs d = [] → __getitem__ decode d i = inl IndexError)
    as Hnil.
  { intros i Hi Hnil. unfold __getitem__.
    by rewrite (resolve_negative d i Hd Hi), Hnil. }
  assert (∀ i db0 rest, i < 0 → dbs d = db0 :: rest →
    __getitem__ decode d i
    = ('(img, _) ← LSUNClass.__getitem__ decode db0 i;
       ret (img, label d 0))) as Hget.
  { intros i db0 rest Hi Hdbs. apply (getitem_resolved d i 0 i db0).
    - by apply resolve_negative.
    - by rewrite Hdbs. }
  assert (∀ i db0 rest, i < 0 → dbs d = db0 :: rest →
    i < - Z.of_nat (List.length (LSUNClass.keys db0)) →
    __getitem__ decode d i = inl IndexError) as Hlow.
  { intros i db0 rest Hi Hdbs Hlow. rewrite (Hget i db0 rest Hi Hdbs).
    by rewrite LSUNClass_getitem_below. }
  assert (∀ i db0 rest, i < 0 → dbs d = db0 :: rest →
    - Z.of_nat (List.length (LSUNClass.keys db0)) ≤ i →
    __getitem__ decode d i ≠ inl IndexError) as Hin.
  { intros i db0 rest Hi Hdbs Hge. rewrite (Hget i db0 rest Hi Hdbs).
    pose proof (LSUNClass_getitem_inside db0 i ltac:(lia) _ eq_refl) as Hne.
    destruct (LSUNClass.__getitem__ decode db0 i) as [e|[img t]]; simpl;
      [congruence|done]. }
  split; [intros i; by apply getitem_past|].
  split; [intros i; by apply resolve_negative|].
  split; [exact Hnil|]. split; [|split].
  - intros i db0 rest Hi Hdbs. split; [by apply (Hget i db0 rest)|]. split.
    + by apply (Hlow i db0 rest).
    + intros keys key buf img -> Hkeys Hbuf Himg.
      rewrite (Hget (-1) db0 rest Hi Hdbs).
      rewrite (LSUNClass_getitem_key db0 (-1) key buf img); [done| |done..].
      rewrite Hkeys. apply py_index_last.
  - intros i db0 rest Hi Hdbs Hge. split; [by apply (Hin i db0 rest)|].
    rewrite (Hget i db0 rest Hi Hdbs). unfold LSUNClass.__getitem__.
    by rewrite (py_index_negative (LSUNClass.keys db0) i) by lia.
  - intros i Hi. split.
    + intros Herr. destruct (dbs d) as [|db0 rest] eqn:Hdbs; [by left|].
      right. exists db0, rest. split; [done|].
      destruct (Z.lt_ge_cases i
                  (- Z.of_nat (List.length (LSUNClass.keys db0))))
        as [Hlt|Hge]; [done|].
      by destruct (Hin i db0 rest Hi eq_refl Hge).
    + intros [Hdbs|(db0 & rest & Hdbs & Hlt)].
      * by apply Hnil.
      * by apply (Hlow i db0 rest).
Qed.


End fetch.

(** ** Worked examples *)

Section examples.
Import LSUNCustomDataLoader Examples.

Example init_sheep_dataset :
  __init__ "data" (PyList [PyStr "sheep_train"]) None None fresh_world
  = (inr sheep_dataset,
     World {[ "data" := sheep_env ]}
           {[ "_cache_data" := Pickled ["k0"; "k1"; "k2"] ]}
           [EvDump "_cache_data"; EvScan "data"; EvOpen "data"]).
Proof. vm_compute. reflexivity. Qed.

Example init_sheep_pair :
  (__init__ "data" (PyList [PyStr "sheep_train"; PyStr "sheep_val"]) None None
     fresh_world).1 = inr sheep_pair.
Proof. vm_compute. reflexivity. Qed.

(** The scenario of two stores with counts 3 and 5. *)
Example resolve_two_stores :
  built two_stores
  ∧ resolve two_stores 0 = (0, 0)
  ∧ resolve two_stores 2 = (0, 2)
  ∧ resolve two_stores 3 = (1, 0)
  ∧ resolve two_stores 7 = (1, 4)
  ∧ __getitem__ Some two_stores 7 = inr ("y4", PyInt 1)
  ∧ __getitem__ Some two_stores 8 = inl IndexError.
Proof. repeat split; reflexivity. Qed.

End examples.

(** ** The theorems at the example data *)

Section instances.
Import LSUNCustomDataLoader Examples.

Lemma C1_resolve_bijection_witness :
  built sheep_pair
  ∧ (∃ k db, dbs sheep_pair !! k = Some db
       ∧ resolve sheep_pair 4
         = (Z.of_nat k, 4 - prev_boundary (indices sheep_pair) k)
       ∧ 0 ≤ 4 - prev_boundary (indices sheep_pair) k < LSUNClass.__len__ db)
  ∧ (0 ≤ prev_boundary (indices sheep_pair) 1 + 2 < __len__ sheep_pair
     ∧ resolve sheep_pair (prev_boundary (indices sheep_pair) 1 + 2)
       = (Z.of_nat 1, 2)).
Proof.
  assert (built sheep_pair) as Hb by reflexivity.
  destruct (C1_resolve_bijection sheep_pair Hb) as (Hin & _ & Hsur).
  split; [exact Hb|]. split.
  - apply Hin. unfold __len__. simpl. lia.
  - apply (Hsur 1%nat sheep_db 2); [reflexivity|].
    unfold LSUNClass.__len__. simpl. lia.
Defined.

(** C2 does not hold for index -1: on the dataset of one class over a
    store of three entries, the fetch at -1 returns the last item of the
    store, with label 0. *)
Lemma C2_counterexample :
  (__init__ "data" (PyList [PyStr "sheep_train"]) None None fresh_world).1
    = inr sheep_dataset
  ∧ __len__ sheep_dataset = 3
  ∧ __getitem__ Some sheep_dataset (-1) = inr ("v2", PyInt 0)
  ∧ __getitem__ Some sheep_dataset (-1) ≠ inl IndexError.
Proof.
  split; [vm_compute; reflexivity|]. split; [reflexivity|].
  split; [reflexivity|]. vm_compute. discriminate.
Qed.

Lemma C2_out_of_range_witness :
  built sheep_dataset
  ∧ __getitem__ Some sheep_dataset 3 = inl IndexError
  ∧ __getitem__ Some sheep_dataset (-4) = inl IndexError
  ∧ __getitem__ Some sheep_dataset (-1)
    = inr ((item_of sheep_db "v2").1, label sheep_dataset 0)
  ∧ __getitem__ Some sheep_dataset (-3) ≠ inl IndexError
  ∧ (__getitem__ Some sheep_dataset (-4) = inl IndexError
     ↔ dbs sheep_dataset = []
       ∨ ∃ db0 rest, dbs sheep_dataset = db0 :: rest
           ∧ -4 < - Z.of_nat (List.length (LSUNClass.keys db0))).
Proof.
  assert (built sheep_dataset) as Hb by reflexivity.
  destruct (C2_out_of_range Some sheep_dataset Hb)
    as (Hpast & _ & _ & Hneg & Hin & Hiff).
  split; [exact Hb|]. split; [|split; [|split; [|split]]].
  - apply Hpast. unfold __len__. simpl. lia.
  - apply (Hneg (-4) sheep_db []); [lia|reflexivity|simpl; lia].
  - destruct (Hneg (-1) sheep_db []) as (_ & _ & Hlast); [lia|reflexivity|].
    apply (Hlast ["k0"; "k1"] "k2" "v2"); reflexivity.
  - apply (Hin (-3) sheep_db []); [lia|reflexivity|simpl; lia].
  - apply Hiff. lia.
Defined.

Lemma C3_count_and_keys_witness :
  (∃ h w', LSUNClass.__init__ (image:=bytes) "data" None None fresh_world
           = (inr h, w')
     ∧ LSUNClass.length h = stat_entries sheep_env
     ∧ LSUNClass.keys h = sheep_env.*1
     ∧ List.length (LSUNClass.keys h) = LSUNClass.length h)
  ∧ (∃ h w', LSUNClass.__init__ (image:=bytes) "data" None None stale_world
             = (inr h, w')
       ∧ LSUNClass.length h = stat_entries [("k0", "v0"); ("k1", "v1")]
       ∧ LSUNClass.keys h = ["k0"]).
Proof.
  split.
  - apply (C3_count_and_keys "data" None None fresh_world sheep_env);
      reflexivity.
  - apply (C3_count_and_keys "data" None None stale_world
             [("k0", "v0"); ("k1", "v1")]); reflexivity.
Defined.

Lemma C4_boundary_table_witness :
  built two_stores
  ∧ (∃ b, indices two_stores !! 1%nat = Some b
       ∧ b - prev_boundary (indices two_stores) 1 = 5)
  ∧ last (indices two_stores) = Some (total_length (dbs two_stores))
  ∧ __len__ two_stores = 8.
Proof.
  assert (built two_stores) as Hb by reflexivity.
  destruct (C4_boundary_table two_stores Hb) as (_ & Hstep & Hlast & _ & Hlen).
  split; [exact Hb|]. split; [|split].
  - apply (Hstep 1%nat
      (store_of "b" [("b0", "y0"); ("b1", "y1"); ("b2", "y2"); ("b3", "y3");
                     ("b4", "y4")])). reflexivity.
  - apply Hlast. discriminate.
  - apply Hlen. reflexivity.
Defined.


Lemma C8_load_or_build_idempotent_witness :
  ∃ h1 w1 h2 w2,
    LSUNClass.__init__ (image:=bytes) "data" None None fresh_world
      = (inr h1, w1)
    ∧ LSUNClass.__init__ (image:=bytes) "data" None None w1 = (inr h2, w2)
    ∧ LSUNClass.keys h2 = LSUNClass.keys h1
    ∧ LSUNClass.keys h1 = ["k0"; "k1"; "k2"]
    ∧ trace w2 = [EvLoad "_cache_data"; EvOpen "data"; EvDump "_cache_data";
                  EvScan "data"; EvOpen "data"].
Proof.
  destruct (C8_load_or_build_idempotent (image:=bytes) "data" None None
              fresh_world sheep_env eq_refl)
    as (h1 & w1 & h2 & w2 & H1 & H2 & Hk & _ & Ht2 & Hmiss & _);
    [discriminate|].
  exists h1, w1, h2, w2. destruct (Hmiss eq_refl) as [Hk1 Ht1].
  repeat split; try done. by rewrite Ht2, Ht1.
Defined.

Lemma C9_all_stores_at_root_witness :
  ∃ d w', __init__ (image:=bytes) "data" (PyStr "val") None None fresh_world
          = (inr d, w')
    ∧ List.length (dbs d) = 11%nat
    ∧ (∀ db, db ∈ dbs d → LSUNClass.root db = "data")
    ∧ __len__ d = 11 * 3.
Proof.
  destruct (C9_all_stores_at_root (image:=bytes) "data" (PyStr "val") None None
              fresh_world) as [Hinv Hok].
  destruct (Hok _ sheep_env eq_refl eq_refl) as (d & w' & Hinit);
    [discriminate|].
  exists d, w'. split; [exact Hinit|].
  destruct (Hinv d w' Hinit) as (Hcl & Hn & Hroot & _ & Hlen & _).
  injection Hcl as Hcl. rewrite <- Hcl in *.
  split; [exact Hn|]. split.
  - intros db Hdb. apply (Hroot db Hdb).
  - apply (Hlen sheep_env eq_refl).
Defined.

End instances.

(** * Further properties *)

(** ** Class names *)

Lemma append_assoc (a b c : string) : (a +:+ b) +:+ c = a +:+ b +:+ c.
Proof.
  induction a as [|x a IH]; [done|].
  change (String x ((a +:+ b) +:+ c) = String x (a +:+ b +:+ c)).
  by rewrite IH.
Qed.

Lemma contains_app c a b : contains c (a +:+ b) = contains c a || contains c b.
Proof.
  induction a as [|x a IH]; [done|].
  change (contains c (String x (a +:+ b))
          = contains c (String x a) || contains c b).
  simpl. by rewrite IH, orb_assoc.
Qed.

Lemma split_no_sep_inside sep s :
  Forall (λ w, contains sep w = false) (split sep s).
Proof.
  induction s as [|c s IH]; simpl; [by repeat constructor|].
  destruct (Ascii.eqb c sep) eqn:Hc; [by constructor|].
  destruct (split sep s) as [|w ws]; [by repeat constructor; simpl; rewrite Hc|].
  apply Forall_cons in IH as [Hw Hws]. constructor; [|done].
  simpl. by rewrite Hc, Hw.
Qed.

Lemma join_snoc sep l x :
  l ≠ [] → join sep (l ++ [x]) = join sep l +:+ sep +:+ x.
Proof.
  induction l as [|y l IH]; [done|]. intros _.
  destruct l as [|z l]; [done|].
  change (join sep ((y :: z :: l) ++ [x]))
    with (y +:+ sep +:+ join sep ((z :: l) ++ [x])).
  rewrite IH by done.
  change (join sep (y :: z :: l)) with (y +:+ sep +:+ join sep (z :: l)).
  by rewrite !append_assoc.
Qed.

(** X1: the two parts that an element is split into give the element
    back.  The postfix never has an underscore; an element with an
    underscore is its category, an underscore and its postfix; an element
    without one has the empty category and is its own postfix. *)
Theorem split_class_rejoin c category dset_opt :
  split_class c = inr (category, dset_opt) →
  contains "_" dset_opt = false
  ∧ (contains "_" c = true ∧ c = category +:+ "_" +:+ dset_opt
     ∨ contains "_" c = false ∧ category = "" ∧ dset_opt = c).
Proof.
  unfold split_class. intros Hc.
  pose proof (join_split "_" c) as Hjoin.
  pose proof (split_no_sep_inside "_" c) as Hno.
  destruct (split_nonempty "_" c) as (w & ws & Hs).
  destruct (exists_last (l:=w :: ws)) as (l & x & Hl); [done|].
  rewrite Hs, Hl in *. rewrite py_init_snoc, py_index_last in Hc.
  simpl in Hc. injection Hc as <- <-.
  apply Forall_app in Hno as [_ [Hx _]%Forall_cons].
  split; [done|]. destruct l as [|y l].
  - right. simpl in Hjoin. subst c. done.
  - left. rewrite join_snoc in Hjoin by done. split; [|done].
    rewrite <- Hjoin, !contains_app. simpl. by rewrite orb_true_r.
Qed.

Lemma split_class_rejoin_witness :
  contains "_" "train" = false
  ∧ (contains "_" "church_outdoor_train" = true
     ∧ "church_outdoor_train" = "church_outdoor" +:+ "_" +:+ "train"
     ∨ contains "_" "church_outdoor_train" = false
       ∧ "church_outdoor" = "" ∧ "train" = "church_outdoor_train").
Proof.
  apply (split_class_rejoin "church_outdoor_train" "church_outdoor" "train").
  reflexivity.
Defined.

Lemma dset_opt_no_underscore dset_opt :
  dset_opt ∈ dset_opts → contains "_" dset_opt = false.
Proof.
  unfold dset_opts. rewrite !elem_of_cons, elem_of_nil.
  intros [->|[->|[->|[]]]]; reflexivity.
Qed.

Lemma valid_class_intro category dset_opt :
  category ∈ categories → dset_opt ∈ dset_opts →
  valid_class (category +:+ "_" +:+ dset_opt).
Proof.
  intros Hcat Hopt. exists category, dset_opt. split; [|done].
  by apply split_class_last_underscore, dset_opt_no_underscore.
Qed.



Lemma verify_class_ok_inv c : verify_class (PyStr c) = inr () → valid_class c.
Proof.
  destruct (split_class_total c) as (category & dset_opt & Hc).
  rewrite (verify_class_spec _ _ _ Hc).
  repeat case_bool_decide; [|done..]. intros _. by exists category, dset_opt.
Qed.

Lemma for_each_ok_inv l :
  for_each verify_class (PyStr <$> l) = inr () → Forall valid_class l.
Proof.
  induction l as [|c l IH]; simpl; [by constructor|].
  destruct (verify_class (PyStr c)) as [e|[]] eqn:Hc; simpl; [done|].
  intros Hl. constructor; [by apply verify_class_ok_inv|by apply IH].
Qed.

(** X3: a list of strings is accepted exactly when every element is a
    valid name, and what is returned is then the list itself. *)
Theorem verify_classes_accepts_iff l r :
  _verify_classes (PyList (PyStr <$> l)) = inr r
  ↔ Forall valid_class l ∧ r = PyStr <$> l.
Proof.
  rewrite verify_classes_list. split.
  - destruct (for_each verify_class (PyStr <$> l)) as [e|[]] eqn:Hl; simpl;
      [done|]. intros [= <-]. split; [by apply for_each_ok_inv|done].
  - intros [Hl ->]. by rewrite for_each_valid.
Qed.

Lemma verify_classes_accepts_iff_witness :
  Forall valid_class ["bridge_test"; "bridge_test"]
  ∧ [PyStr "bridge_test"; PyStr "bridge_test"]
    = PyStr <$> ["bridge_test"; "bridge_test"].
Proof.
  apply (proj1 (verify_classes_accepts_iff ["bridge_test"; "bridge_test"] _)).
  reflexivity.
Defined.

(** X4: what the resolution returns is accepted again when it is given
    back as an explicit list, and resolves to itself; the one exception
    is the split name ["test"], whose result [["test"]] is rejected as an
    explicit list. *)
Theorem verify_classes_again :
  (∀ classes r, _verify_classes classes = inr r → classes ≠ PyStr "test" →
     _verify_classes (PyList r) = inr r)
  ∧ _verify_classes (PyStr "test") = inr [PyStr "test"]
  ∧ _verify_classes (PyList [PyStr "test"]) = inl (unknown_category "").
Proof.
  split; [|split; reflexivity].
  intros classes r Hr Hne. unfold _verify_classes in Hr.
  assert (∀ l, (for_each verify_class l;; ret l) = inr r →
               _verify_classes (PyList r) = inr r) as Hlist.
  { intros l Hl. rewrite verify_classes_list.
    destruct (for_each verify_class l) as [e|[]] eqn:Hf; simpl in Hl; [done|].
    injection Hl as <-. by rewrite Hf. }
  destruct classes as [| |s|l]; simpl in Hr; [done|done| |by apply (Hlist l)].
  case_bool_decide as Hs; simpl in Hr; [|by apply (Hlist (PyStr <$> chars s))].
  unfold dset_opts in Hs. rewrite !elem_of_cons, elem_of_nil in Hs.
  destruct Hs as [->|[->|[->|[]]]]; [| |done];
    vm_compute in Hr; injection Hr as <-; reflexivity.
Qed.

Lemma verify_classes_again_witness :
  _verify_classes
    (PyList ((λ c, PyStr (c +:+ "_val")) <$> categories))
  = inr ((λ c, PyStr (c +:+ "_val")) <$> categories).
Proof.
  apply (proj1 verify_classes_again (PyStr "val")); [reflexivity|discriminate].
Defined.

(** X5: a value that is no string and no iterable is rejected with the
    message about the type of the argument.  In an explicit list, the
    first element that is not a string, after valid names, is rejected
    with the message of [verify_str_arg] about its type, and not with the
    message about the elements that the loop prepares. *)
Theorem verify_classes_type_errors :
  (∀ classes, isinstance_Iterable classes = false →
     _verify_classes classes
     = inl (ValueError
         ("Expected type str or Iterable for argument classes, but got type "
          +:+ type_name classes +:+ ".")))
  ∧ (∀ pre v post, Forall valid_class pre → (∀ s, v ≠ PyStr s) →
       _verify_classes (PyList ((PyStr <$> pre) ++ v :: post))
       = inl (ValueError
           ("Expected type str, but got type " +:+ type_name v +:+ "."))
       ∧ _verify_classes (PyList ((PyStr <$> pre) ++ v :: post))
         ≠ inl (ValueError (msg_fmtstr_type (type_name v)))).
Proof.
  split.
  - intros [| |s|l]; simpl; done.
  - intros pre v post Hpre Hv.
    rewrite verify_classes_list, for_each_app, (for_each_valid pre Hpre).
    destruct v as [|z|s|l]; [| |by destruct (Hv s)|]; by vm_compute.
Qed.

Lemma verify_classes_type_errors_witness :
  _verify_classes (PyInt 7)
  = inl (ValueError
      "Expected type str or Iterable for argument classes, but got type <class 'int'>.")
  ∧ _verify_classes (PyList ((PyStr <$> ["tower_train"]) ++ PyNone :: []))
    = inl (ValueError "Expected type str, but got type <class 'NoneType'>.").
Proof.
  destruct verify_classes_type_errors as [Hnot Helem]. split.
  - apply (Hnot (PyInt 7)). reflexivity.
  - apply (Helem ["tower_train"] PyNone []); [|discriminate].
    repeat constructor.
    apply (valid_class_intro "tower" "train"); by apply (bool_decide_unpack _).
Defined.

(** ** The cache file *)






Section cache.
Context {image : Type}.
Implicit Types (w : world) (transform : option (image → image)).
Implicit Types (target_transform : option (pyval → pyval)).

(** X7: two stores whose roots have the same letters share one cache
    file.  When the first is opened without a cache file and the second
    after it, the second gets the key list of the first, with its own
    count. *)
Theorem cache_collision root1 root2 transform target_transform w env1 env2 :
  letters root1 = letters root2 →
  stores w !! root1 = Some env1 →
  stores w !! root2 = Some env2 →
  files w !! LSUNClass.cache_file root1 = None →
  ∃ h1 w1 h2 w2,
    LSUNClass.__init__ root1 transform target_transform w = (inr h1, w1)
    ∧ LSUNClass.__init__ root2 transform target_transform w1 = (inr h2, w2)
    ∧ LSUNClass.keys h2 = env1.*1
    ∧ LSUNClass.env h2 = env2
    ∧ LSUNClass.length h2 = stat_entries env2
    ∧ count_events is_scan (trace w2) = S (count_events is_scan (trace w)).
Proof.
  intros Hl H1 H2 Hc.
  assert (LSUNClass.cache_file root2 = LSUNClass.cache_file root1) as Hf
    by (unfold LSUNClass.cache_file; by rewrite Hl).
  rewrite (LSUNClass_init_miss _ _ _ _ _ H1 Hc). do 2 eexists.
  eexists _, _. split; [done|]. split.
  - apply (LSUNClass_init_hit _ _ _ _ env2 env1.*1); [done|].
    simpl. rewrite Hf. apply lookup_insert_eq.
  - done.
Qed.

(** X8: opening a store changes no store and no file but the cache file
    of its root, which it writes only when there is none; a cache file
    that is there is never written again.  Without a store at the root the
    opening fails with the error of [lmdb.open] and changes nothing.  What
    was done before stays in the trace. *)
Theorem LSUNClass_init_frame root transform target_transform w r w' :
  LSUNClass.__init__ root transform target_transform w = (r, w') →
  stores w' = stores w
  ∧ (∀ path, path ≠ LSUNClass.cache_file root →
       files w' !! path = files w !! path)
  ∧ (is_Some (files w !! LSUNClass.cache_file root) → files w' = files w)
  ∧ (stores w !! root = None → r = inl LmdbError ∧ w' = w)
  ∧ (∃ new, trace w' = new ++ trace w).
Proof.
  rewrite LSUNClass_init_spec. cbv zeta.
  destruct (stores w !! root) as [env|] eqn:Hs.
  - destruct (files w !! LSUNClass.cache_file root) as [[keys|]|] eqn:Hc;
      intros [= <- <-]; simpl.
    + repeat split; try done. by eexists [_; _].
    + repeat split; try done. by eexists [_; _].
    + split; [done|]. split; [|split; [|split]].
      * intros path Hp. by rewrite lookup_insert_ne.
      * by intros [? ?].
      * done.
      * by eexists [_; _; _].
  - intros [= <- <-]. repeat split; try done. by exists [].
Qed.

End cache.

(** ** Fetching from one store *)

Section store_fetch.
Context {image : Type} (decode : bytes → option image).
Implicit Types (w : world) (transform : option (image → image)).
Implicit Types (target_transform : option (pyval → pyval)).

Lemma txn_get_lookup (env : list (bytes * bytes)) i k v :
  NoDup env.*1 → env !! i = Some (k, v) → txn_get env k = Some v.
Proof.
  revert i. induction env as [|[k0 v0] env IH]; intros i Hnd Hi; [done|].
  apply NoDup_cons in Hnd as [Hk0 Hnd]. simpl.
  destruct i as [|i]; simpl in Hi.
  - injection Hi as -> ->. by rewrite String.eqb_refl.
  - destruct (String.eqb_spec k0 k) as [->|_]; [|by apply (IH i)].
    destruct Hk0. apply list_elem_of_fmap. exists (k, v).
    split; [done|]. by apply (list_elem_of_lookup_2 _ i).
Qed.

Lemma LSUNClass_getitem_value (db : LSUNClass.t image) index key v :
  py_index (LSUNClass.keys db) index = inr key →
  txn_get (LSUNClass.env db) key = Some v →
  LSUNClass.__getitem__ decode db index
  = fetched decode (LSUNClass.transform db) (LSUNClass.target_transform db) v.
Proof.
  intros Hkey Hv. unfold LSUNClass.__getitem__, fetched.
  rewrite Hkey. simpl. rewrite Hv. simpl. by destruct (decode v).
Qed.

Lemma LSUNClass_init_keys_in root transform target_transform w env :
  stores w !! root = Some env →
  files w !! LSUNClass.cache_file root ≠ Some Unreadable →
  ∃ w', LSUNClass.__init__ root transform target_transform w
        = (inr (LSUNClass.Build image root transform target_transform env
                  (List.length env) (keys_in w root env)), w')
    ∧ stores w' = stores w
    ∧ files w' !! LSUNClass.cache_file root
      = Some (Pickled (keys_in w root env)).
Proof.
  intros Hs Hc. unfold keys_in.
  destruct (files w !! LSUNClass.cache_file root) as [[keys|]|] eqn:Hf;
    [|done|].
  - rewrite (LSUNClass_init_hit _ _ _ _ _ _ Hs Hf). by eexists.
  - rewrite (LSUNClass_init_miss _ _ _ _ _ Hs Hf). eexists.
    split; [done|]. split; [done|]. apply lookup_insert_eq.
Qed.

(** X9: a store that is opened with no cache file, or with the cache
    file of its present keys, returns at position [i] what the decoder
    and the transforms make of the value of its [i]-th entry in cursor
    order, and the same at position [i - len], counted from the end.
    Where the value does not decode the fetch fails with the decoder's
    error. *)
Theorem LSUNClass_getitem_entry root transform target_transform w env i k v :
  stores w !! root = Some env →
  files w !! LSUNClass.cache_file root = None
  ∨ files w !! LSUNClass.cache_file root = Some (Pickled env.*1) →
  NoDup env.*1 →
  env !! i = Some (k, v) →
  ∃ h w', LSUNClass.__init__ root transform target_transform w = (inr h, w')
    ∧ LSUNClass.__getitem__ decode h (Z.of_nat i)
      = fetched decode transform target_transform v
    ∧ LSUNClass.__getitem__ decode h
        (Z.of_nat i - Z.of_nat (List.length env))
      = fetched decode transform target_transform v.
Proof.
  intros Hs Hf Hnd Hi.
  assert (files w !! LSUNClass.cache_file root ≠ Some Unreadable) as Hc
    by (by destruct Hf as [-> | ->]).
  assert (keys_in w root env = env.*1) as Hkeys
    by (unfold keys_in; by destruct Hf as [-> | ->]).
  destruct (LSUNClass_init_keys_in root transform target_transform w env Hs Hc)
    as (w' & -> & _). rewrite Hkeys. do 2 eexists. split; [done|].
  assert (env.*1 !! i = Some k) as Hk by (by rewrite list_lookup_fmap, Hi).
  pose proof (lookup_lt_Some _ _ _ Hi) as Hlt.
  pose proof (txn_get_lookup env i k v Hnd Hi) as Hv.
  split.
  - rewrite (LSUNClass_getitem_value _ _ k v); [done| |done].
    by apply py_index_nonneg.
  - rewrite (LSUNClass_getitem_value _ _ k v); [done| |done]. simpl.
    rewrite py_index_negative by (rewrite length_fmap; lia).
    rewrite length_fmap.
    replace (Z.of_nat i - Z.of_nat (List.length env)
             + Z.of_nat (List.length env)) with (Z.of_nat i) by lia.
    by apply py_index_nonneg.
Qed.

(** X10: a store that is opened with a cache file is read through the
    keys of that file, whatever the store holds now.  A position that the
    file has no key for fails with [IndexError], also when it is below the
    length of the store; a key that the store has lost fails with
    [TypeError]; a key that the store has gives its present value. *)
Theorem stale_cache_fetch root transform target_transform w env keys :
  stores w !! root = Some env →
  files w !! LSUNClass.cache_file root = Some (Pickled keys) →
  ∃ h w', LSUNClass.__init__ root transform target_transform w = (inr h, w')
    ∧ LSUNClass.__len__ h = Z.of_nat (List.length env)
    ∧ (∀ index, Z.of_nat (List.length keys) ≤ index →
         LSUNClass.__getitem__ decode h index = inl IndexError)
    ∧ (∀ i key, keys !! i = Some key → txn_get env key = None →
         LSUNClass.__getitem__ decode h (Z.of_nat i) = inl TypeError)
    ∧ (∀ i key v, keys !! i = Some key → txn_get env key = Some v →
         LSUNClass.__getitem__ decode h (Z.of_nat i)
         = fetched decode transform target_transform v).
Proof.
  intros Hs Hf. rewrite (LSUNClass_init_hit _ _ _ _ _ _ Hs Hf).
  do 2 eexists. split; [done|]. split; [done|]. split; [|split].
  - intros index Hi. unfold LSUNClass.__getitem__. simpl.
    by rewrite py_index_ge.
  - intros i key Hk Hv. unfold LSUNClass.__getitem__. simpl.
    rewrite (py_index_nonneg _ _ _ Hk). simpl. by rewrite Hv.
  - intros i key v Hk Hv.
    rewrite (LSUNClass_getitem_value _ _ key v); [done| |done].
    by apply py_index_nonneg.
Qed.

End store_fetch.

(** ** The dataset as a whole *)

Section dataset.
Context {image : Type} (decode : bytes → option image).
Implicit Types (w : world) (transform : option (image → image)).
Implicit Types (target_transform : option (pyval → pyval)).
Implicit Types (db : LSUNClass.t image) (dbs : list (LSUNClass.t image)).
Implicit Types (d : LSUNCustomDataLoader.t image).

Import LSUNCustomDataLoader.

(** X11: the boundary table is sorted: its entries are not negative,
    never decrease, and none is above the length of the dataset. *)
Theorem boundaries_sorted d j k a b :
  built d → (j ≤ k)%nat →
  indices d !! j = Some a → indices d !! k = Some b →
  0 ≤ a ∧ a ≤ b ∧ b ≤ __len__ d.
Proof.
  intros Hd Hjk Ha Hb. destruct (built_indices d Hd) as [Hind Hlen].
  unfold __len__. rewrite Hlen. rewrite Hind in Ha, Hb.
  pose proof (lookup_lt_Some _ _ _ Ha) as Hj.
  pose proof (lookup_lt_Some _ _ _ Hb) as Hk.
  rewrite cumsum_length in Hj, Hk.
  destruct (lookup_lt_is_Some_2 (dbs d) j Hj) as [dbj Hdbj].
  destruct (lookup_lt_is_Some_2 (dbs d) k Hk) as [dbk Hdbk].
  rewrite (cumsum_lookup _ _ _ _ Hdbj) in Ha.
  rewrite (cumsum_lookup _ _ _ _ Hdbk) in Hb.
  injection Ha as <-. injection Hb as <-.
  pose proof (total_length_nonneg (take (S j) (dbs d))).
  pose proof (total_length_take_mono (dbs d) (S j) (S k)).
  pose proof (total_length_take_le (dbs d) (S k)). lia.
Qed.

(** The stores of a dataset are copies of one handle. *)
Lemma open_dbs_handles root transform classes acc w dbs w' :
  open_dbs root transform classes acc w = (inr dbs, w') →
  ∃ new, dbs = acc ++ new
    ∧ List.length new = List.length classes
    ∧ Forall (λ db, ∃ env, stores w !! root = Some env
                ∧ db = LSUNClass.Build image root transform None env
                         (List.length env) (keys_in w root env)) new.
Proof.
  revert acc w. induction classes as [|c classes IH]; intros acc w; simpl.
  - intros [= <- <-]. exists []. by rewrite app_nil_r.
  - unfold mbind, io_bind. rewrite LSUNClass_init_spec. cbv zeta.
    destruct (stores w !! root) as [env|] eqn:Hs; [|done].
    destruct (files w !! LSUNClass.cache_file root) as [[keys|]|] eqn:Hf;
      [|done|].
    + intros (new & -> & Hlen & Hall)%IH.
      eexists (_ :: new). rewrite <- app_assoc. split; [done|].
      split; [simpl; by rewrite Hlen|]. constructor.
      * exists env. split; [done|]. unfold keys_in. by rewrite Hf.
      * eapply Forall_impl; [exact Hall|]. simpl.
        intros db (env' & Henv' & ->). simpl in Henv'.
        exists env'. split; [congruence|].
        unfold keys_in. simpl. by rewrite Hf.
    + intros (new & -> & Hlen & Hall)%IH.
      eexists (_ :: new). rewrite <- app_assoc. split; [done|].
      split; [simpl; by rewrite Hlen|]. constructor.
      * exists env. split; [done|]. unfold keys_in. by rewrite Hf.
      * eapply Forall_impl; [exact Hall|]. simpl.
        intros db (env' & Henv' & ->). simpl in Henv'.
        exists env'. split; [congruence|].
        unfold keys_in. simpl. rewrite lookup_insert_eq, Hf. congruence.
Qed.

Lemma init_handles root classes transform target_transform w d w' :
  __init__ root classes transform target_transform w = (inr d, w') →
  built d
  ∧ LSUNCustomDataLoader.target_transform d = target_transform
  ∧ List.length (dbs d) = List.length (LSUNCustomDataLoader.classes d)
  ∧ Forall (λ db, ∃ env, stores w !! root = Some env
              ∧ db = LSUNClass.Build image root transform None env
                       (List.length env) (keys_in w root env)) (dbs d).
Proof.
  intros (_ & Hopen & Hd & Htt)%init_inv.
  apply open_dbs_handles in Hopen as (new & Hdbs & Hlen & Hall).
  simpl in Hdbs. subst new. done.
Qed.

Lemma total_length_handles dbs e :
  Forall (λ db, LSUNClass.__len__ db = e) dbs →
  ∀ k, (k ≤ List.length dbs)%nat →
  total_length (take k dbs) = Z.of_nat k * e.
Proof.
  intros Hall k Hk.
  rewrite (total_length_same (take k dbs) e) by (by apply Forall_take).
  rewrite length_take. f_equal. lia.
Qed.

(** Where the dataset sends a global index: the store is the quotient
    and the local index the remainder of the division by the number of
    entries. *)
Lemma init_resolve root classes transform target_transform w d w' env i :
  __init__ root classes transform target_transform w = (inr d, w') →
  stores w !! root = Some env →
  0 ≤ i < __len__ d →
  let e := Z.of_nat (stat_entries env) in
  resolve d i = (i / e, i `mod` e)
  ∧ 0 ≤ i `mod` e < e
  ∧ dbs d !! Z.to_nat (i / e)
    = Some (LSUNClass.Build image root transform None env
              (List.length env) (keys_in w root env))
  ∧ 0 ≤ i / e < Z.of_nat (List.length (LSUNCustomDataLoader.classes d)).
Proof.
  intros (Hd & _ & Hn & Hall)%init_handles Hs Hi e.
  assert (Forall (λ db, LSUNClass.__len__ db = e) (dbs d)) as Hsame.
  { eapply Forall_impl; [exact Hall|]. simpl.
    intros db (env' & Henv' & ->). unfold LSUNClass.__len__. simpl.
    subst e. unfold stat_entries. congruence. }
  destruct (resolve_inside d i Hd Hi) as (k & db & Hk & Hr & Hl).
  pose proof (lookup_lt_Some _ _ _ Hk) as Hlt.
  rewrite (built_prev_boundary d k Hd (Nat.lt_le_incl _ _ Hlt)) in *.
  rewrite (total_length_handles _ e Hsame k (Nat.lt_le_incl _ _ Hlt)) in *.
  rewrite (proj1 (Forall_forall _ _) Hsame db
             (list_elem_of_lookup_2 _ _ _ Hk)) in Hl.
  assert (i / e = Z.of_nat k) as Hq
    by (symmetry; apply (Z.div_unique i e _ (i - Z.of_nat k * e)); lia).
  assert (i `mod` e = i - Z.of_nat k * e) as Hm
    by (symmetry; apply (Z.mod_unique i e (Z.of_nat k)); lia).
  rewrite Hr, Hq, Hm, Nat2Z.id, Hk. split; [done|]. split; [done|].
  split; [|lia]. f_equal.
  destruct (proj1 (Forall_forall _ _) Hall db
              (list_elem_of_lookup_2 _ _ _ Hk)) as (env' & Henv' & ->).
  congruence.
Qed.

(** X12: a dataset of [n] classes over a store of [e] entries is that
    store [n] times over: its length is [n * e], and the global index [i]
    goes to store [i / e], at the local index [i mod e]. *)
Theorem resolve_div_mod root classes transform target_transform w d w' env :
  __init__ root classes transform target_transform w = (inr d, w') →
  stores w !! root = Some env →
  __len__ d = Z.of_nat (List.length (LSUNCustomDataLoader.classes d))
              * Z.of_nat (stat_entries env)
  ∧ ∀ i, 0 ≤ i < __len__ d →
      resolve d i = (i / Z.of_nat (stat_entries env),
                     i `mod` Z.of_nat (stat_entries env)).
Proof.
  intros Hinit Hs. split.
  - destruct (init_handles _ _ _ _ _ _ _ Hinit) as (Hd & _ & Hn & Hall).
    destruct (built_indices d Hd) as [_ Hlen]. unfold __len__.
    rewrite Hlen, <- Hn. apply total_length_same.
    eapply Forall_impl; [exact Hall|]. simpl.
    intros db (env' & Henv' & ->). unfold LSUNClass.__len__, stat_entries.
    simpl. congruence.
  - intros i Hi.
    by destruct (init_resolve _ _ _ _ _ _ _ _ i Hinit Hs Hi) as [-> _].
Qed.

(** X13: on a dataset that is built over a store with no cache file, or
    with the cache file of its present keys, the fetch at the global
    index [i] returns the item that the decoder and the transform make of
    the value of entry [i mod e] of the store, in cursor order, with the
    label [i / e], passed through the label transform when there is one.
    It fails with the decoder's error where that value does not decode. *)
Theorem dataset_getitem_entry
    root classes transform target_transform w d w' env i k v :
  __init__ root classes transform target_transform w = (inr d, w') →
  stores w !! root = Some env →
  files w !! LSUNClass.cache_file root = None
  ∨ files w !! LSUNClass.cache_file root = Some (Pickled env.*1) →
  NoDup env.*1 →
  0 ≤ i < __len__ d →
  env !! Z.to_nat (i `mod` Z.of_nat (stat_entries env)) = Some (k, v) →
  __getitem__ decode d i
  = ('(img, _) ← fetched decode transform None v;
     ret (img,
          from_option (λ f, f (PyInt (i / Z.of_nat (stat_entries env))))
            (PyInt (i / Z.of_nat (stat_entries env))) target_transform)).
Proof.
  intros Hinit Hs Hf Hnd Hi Hkv.
  destruct (init_resolve _ _ _ _ _ _ _ _ i Hinit Hs Hi)
    as (Hr & Hm & Hdb & Hq).
  destruct (init_handles _ _ _ _ _ _ _ Hinit) as (_ & Htt & _).
  assert (keys_in w root env = env.*1) as Hkeys
    by (unfold keys_in; by destruct Hf as [-> | ->]).
  rewrite Hkeys in Hdb.
  rewrite <- (Z2Nat.id (i / Z.of_nat (stat_entries env))) in Hr by lia.
  rewrite (getitem_resolved decode d i _ _ _ Hr Hdb).
  rewrite Z2Nat.id by lia. unfold label. rewrite Htt.
  rewrite (LSUNClass_getitem_value decode _ _ k v); [done| |].
  - simpl. rewrite <- (Z2Nat.id (i `mod` _)) by lia.
    apply py_index_nonneg. by rewrite list_lookup_fmap, Hkv.
  - simpl. by apply (txn_get_lookup env _ k v Hnd Hkv).
Qed.

End dataset.

(** ** Building the dataset: failures, the empty dataset, the trace *)

Section construction.
Context {image : Type}.
Implicit Types (w : world) (transform : option (image → image)).
Implicit Types (target_transform : option (pyval → pyval)).
Implicit Types (d : LSUNCustomDataLoader.t image).

Import LSUNCustomDataLoader.

(** X14: the classes are validated before anything is opened: where the
    validation fails the construction fails with the same error and leaves
    the world as it was.  With a class to open and no store at the root
    it fails with the error of [lmdb.open], again with nothing changed;
    with a cache file that cannot be read it fails with the error of
    [pickle.load] and leaves stores and files as they were. *)
Theorem init_failures root classes transform target_transform w :
  (∀ e, _verify_classes classes = inl e →
     __init__ (image:=image) root classes transform target_transform w
     = (inl e, w))
  ∧ (∀ c cl, _verify_classes classes = inr (c :: cl) →
       stores w !! root = None →
       __init__ (image:=image) root classes transform target_transform w
       = (inl LmdbError, w))
  ∧ (∀ c cl env, _verify_classes classes = inr (c :: cl) →
       stores w !! root = Some env →
       files w !! LSUNClass.cache_file root = Some Unreadable →
       ∃ w', __init__ (image:=image) root classes transform target_transform w
             = (inl UnpicklingError, w')
         ∧ stores w' = stores w ∧ files w' = files w).
Proof.
  split; [|split].
  - intros e He. unfold __init__, mbind, io_bind, lift. by rewrite He.
  - intros c cl Hcl Hs. unfold __init__, mbind, io_bind, lift. rewrite Hcl.
    simpl. unfold mbind, io_bind. by rewrite LSUNClass_init_spec, Hs.
  - intros c cl env Hcl Hs Hf. unfold __init__, mbind, io_bind, lift.
    rewrite Hcl. simpl. unfold mbind, io_bind.
    rewrite LSUNClass_init_spec, Hs. cbv zeta. rewrite Hf. by eexists.
Qed.

(** X15: the classes resolve to the empty list exactly for the empty
    list and for the empty string.  The dataset is then built without
    opening anything, also where there is no store at the root; it has
    length 0 and every fetch from it fails with [IndexError]. *)
Theorem init_empty root classes transform target_transform w :
  (_verify_classes classes = inr []
   ↔ classes = PyList [] ∨ classes = PyStr "")
  ∧ (_verify_classes classes = inr [] →
     ∃ d, __init__ root classes transform target_transform w = (inr d, w)
       ∧ dbs d = [] ∧ __len__ d = 0
       ∧ ∀ (decode : bytes → option image) i,
           __getitem__ decode d i = inl IndexError).
Proof.
  split.
  - split; [|by intros [-> | ->]].
    destruct classes as [| |s|l]; [done|done| |].
    + destruct s as [|c s]; [by right|]. unfold _verify_classes. simpl.
      case_bool_decide as Hs.
      * unfold dset_opts in Hs. rewrite !elem_of_cons, elem_of_nil in Hs.
        destruct Hs as [Hs|[Hs|[Hs|[]]]]; rewrite Hs; done.
      * simpl. by rewrite verify_class_char.
    + rewrite verify_classes_list.
      destruct (for_each verify_class l) as [e|[]]; simpl; [done|].
      intros [= ->]. by left.
  - intros Hcl. unfold __init__, mbind, io_bind, lift. rewrite Hcl. simpl.
    eexists. split; [done|]. split; [done|]. split; [done|].
    intros decode i. unfold __getitem__, resolve. simpl.
    unfold py_index. simpl. by destruct (0 <? 0), (0 <=? 0).
Qed.

Lemma count_events_app p (t1 t2 : list event) :
  count_events p (t1 ++ t2) = (count_events p t1 + count_events p t2)%nat.
Proof. unfold count_events. by rewrite List.filter_app, length_app. Qed.

Lemma open_dbs_trace_hit root transform classes acc w keys r w' :
  files w !! LSUNClass.cache_file root = Some (Pickled keys) →
  open_dbs (image:=image) root transform classes acc w = (r, w') →
  ∃ new, trace w' = new ++ trace w
    ∧ count_events is_scan new = 0%nat
    ∧ (∀ dbs, r = inr dbs →
         count_events is_open new = List.length classes).
Proof.
  revert acc w. induction classes as [|c classes IH]; intros acc w Hf; simpl.
  - intros [= <- <-]. by exists [].
  - unfold mbind, io_bind. rewrite LSUNClass_init_spec. cbv zeta.
    destruct (stores w !! root) as [env|] eqn:Hs.
    + rewrite Hf. intros (new & -> & Hscan & Hopen)%IH; [|done].
      exists (new ++ [EvLoad (LSUNClass.cache_file root); EvOpen root]).
      simpl. rewrite <- app_assoc. split; [done|].
      rewrite !count_events_app, Hscan. split; [done|].
      intros dbs Hr. rewrite (Hopen dbs Hr). unfold count_events. simpl. lia.
    + intros [= <- <-]. exists []. by repeat split.
Qed.

(** X16: building a dataset of [n] classes opens the store [n] times
    and enumerates its keys once when there was no cache file, and never
    when there was one or when there is no class.  What was done before
    stays in the trace. *)
Theorem init_opens_and_scans root classes transform target_transform w d w' :
  __init__ root classes transform target_transform w = (inr d, w') →
  ∃ new, trace w' = new ++ trace w
    ∧ count_events is_open new
      = List.length (LSUNCustomDataLoader.classes d)
    ∧ count_events is_scan new
      = if bool_decide (is_Some (files w !! LSUNClass.cache_file root)
                        ∨ LSUNCustomDataLoader.classes d = [])
        then 0%nat else 1%nat.
Proof.
  intros (_ & Hopen & _)%init_inv.
  destruct (LSUNCustomDataLoader.classes d) as [|c cl].
  { simpl in Hopen. injection Hopen as _ <-. exists [].
    rewrite bool_decide_eq_true_2 by (by right). done. }
  destruct (files w !! LSUNClass.cache_file root) as [f|] eqn:Hf.
  - rewrite bool_decide_eq_true_2 by (left; by eexists).
    destruct f as [keys|].
    + destruct (open_dbs_trace_hit _ _ _ _ _ _ _ _ Hf Hopen)
        as (new & Ht & Hscan & Hcount).
      exists new. split; [done|]. split; [by apply (Hcount (dbs d))|done].
    + simpl in Hopen. unfold mbind, io_bind in Hopen.
      rewrite LSUNClass_init_spec in Hopen. cbv zeta in Hopen.
      rewrite Hf in Hopen. by destruct (stores w !! root).
  - rewrite bool_decide_eq_false_2
      by (intros [[? ?]|?]; [congruence|done]).
    simpl in Hopen. unfold mbind, io_bind in Hopen.
    rewrite LSUNClass_init_spec in Hopen. cbv zeta in Hopen.
    rewrite Hf in Hopen. destruct (stores w !! root) as [env|]; [|done].
    apply open_dbs_trace_hit with (keys:=env.*1) in Hopen
      as (new & Ht & Hscan & Hcount); [|apply lookup_insert_eq].
    exists (new ++ [EvDump (LSUNClass.cache_file root); EvScan root;
                    EvOpen root]).
    simpl in Ht. rewrite <- app_assoc. split; [done|].
    rewrite !count_events_app, Hscan, (Hcount (dbs d) eq_refl).
    unfold count_events. simpl. split; lia.
Qed.

End construction.

(** ** The entry point *)

Section entry.
Context {image : Type} (decode : bytes → option image).
Implicit Types (w : world) (d : LSUNCustomDataLoader.t image).
Implicit Types (transform : image → image).

Import LSUNCustomDataLoader.

Arguments range : simpl never.

Lemma range_length n : 0 ≤ n → Z.of_nat (List.length (range n)) = n.
Proof. intros Hn. unfold range. rewrite length_fmap, length_seq. lia. Qed.

Lemma py_index_range n idx :
  0 ≤ idx < n → py_index (range n) idx = inr idx.
Proof.
  intros Hi. rewrite <- (Z2Nat.id idx) at 1 by lia.
  rewrite (py_index_nonneg _ _ (Z.of_nat (Z.to_nat idx))).
  - f_equal. lia.
  - unfold range. rewrite list_lookup_fmap, lookup_seq_lt by lia. done.
Qed.

(** An index that [range n] holds is in the range. *)
Lemma py_index_range_inv n idx i :
  py_index (range n) idx = inr i → 0 ≤ i < n.
Proof.
  unfold py_index.
  destruct (_ || _); [done|].
  destruct (range n !! _) as [x|] eqn:Hx; [|done]. intros [= <-].
  unfold range in Hx. apply list_lookup_fmap_Some in Hx as (j & -> & Hj).
  apply lookup_seq in Hj as [-> Hj]. lia.
Qed.

Lemma scan_target_bounds indices index target sub :
  target ≤ (scan indices index target sub).1
  ≤ target + Z.of_nat (List.length indices).
Proof.
  revert target sub. induction indices as [|ind indices IH];
    intros target sub; simpl; [lia|].
  destruct (index <? ind); simpl; [lia|].
  specialize (IH (target + 1) ind). lia.
Qed.

(** A fetch that returns has found its store in the list. *)
Lemma getitem_label d index item lbl :
  __getitem__ decode d index = inr (item, lbl) →
  ∃ k db, dbs d !! k = Some db ∧ lbl = label d (Z.of_nat k).
Proof.
  unfold __getitem__, resolve.
  pose proof (scan_target_bounds (indices d) index 0 0) as Ht.
  destruct (scan (indices d) index 0 0) as [target sub]. simpl in Ht.
  destruct (py_index (dbs d) target) as [e|db] eqn:Hdb; simpl; [done|].
  destruct (LSUNClass.__getitem__ decode db (index - sub)) as [e|[img t]];
    simpl; [done|].
  intros [= _ <-]. exists (Z.to_nat target), db.
  rewrite Z2Nat.id by lia. split; [|done].
  revert Hdb. unfold py_index. cmp; [done|].
  destruct (dbs d !! Z.to_nat target); [|done]. by intros [= ->].
Qed.

Lemma get_lsun_dataloader_spec transform path_to_data dataset w :
  get_lsun_dataloader transform path_to_data dataset w =
  match __init__ path_to_data (PyList [PyStr dataset]) (Some transform) None w
  with
  | (inl e, w') => (inl e, w')
  | (inr d, w') =>
    (inr (Subsets image
            [__len__ d; Subset.__len__ (Subset.Build image d (range 200000))]
            (Subset.Build image d (range 200000))
            (Subset.Build image d (range 128))), w')
  end.
Proof.
  unfold get_lsun_dataloader, mbind, io_bind.
  by destruct (__init__ _ _ _ _ w) as [[e|d] w'].
Qed.

Lemma verify_classes_single dataset :
  _verify_classes (PyList [PyStr dataset])
  = (verify_class (PyStr dataset);; ret [PyStr dataset]).
Proof.
  rewrite verify_classes_list. simpl.
  by destruct (verify_class (PyStr dataset)) as [e|[]].
Qed.

Lemma get_lsun_dataloader_ok transform path_to_data dataset w env :
  valid_class dataset →
  stores w !! path_to_data = Some env →
  files w !! LSUNClass.cache_file path_to_data ≠ Some Unreadable →
  ∃ s w', get_lsun_dataloader transform path_to_data dataset w = (inr s, w').
Proof.
  intros Hv Hs Hf. rewrite get_lsun_dataloader_spec.
  unfold __init__, mbind, io_bind, lift.
  rewrite verify_classes_single, (verify_class_valid _ Hv). simpl.
  unfold mbind, io_bind.
  destruct (LSUNClass_init_keys_in (image:=image) path_to_data
              (Some transform) None w env Hs Hf) as (w' & -> & _).
  simpl. eauto.
Qed.

(** X17: when [get_lsun_dataloader] reaches its [return], the dataset
    has the one class it was given, which is a valid name.  The first
    subset has length 200000 and the second 128, whatever the length of
    the dataset, and the two lengths printed are the one of the dataset
    and 200000.  Position [idx] of a subset is item [idx] of the dataset,
    so a position at or above the length of the dataset fails with
    [IndexError].  Every label that comes out of a subset is 0. *)
Theorem get_lsun_dataloader_subsets transform path_to_data dataset w s w' :
  get_lsun_dataloader transform path_to_data dataset w = (inr s, w') →
  ∃ d, __init__ path_to_data (PyList [PyStr dataset]) (Some transform) None w
       = (inr d, w')
    ∧ valid_class dataset
    ∧ LSUNCustomDataLoader.classes d = [PyStr dataset]
    ∧ Subset.dataset (sub_lsun_dset s) = d
    ∧ Subset.dataset (sub_lsun_test s) = d
    ∧ printed s = [__len__ d; 200000]
    ∧ Subset.__len__ (sub_lsun_dset s) = 200000
    ∧ Subset.__len__ (sub_lsun_test s) = 128
    ∧ (∀ idx, 0 ≤ idx < 200000 →
         Subset.__getitem__ decode (sub_lsun_dset s) idx
         = __getitem__ decode d idx)
    ∧ (∀ idx, 0 ≤ idx < 128 →
         Subset.__getitem__ decode (sub_lsun_test s) idx
         = __getitem__ decode d idx)
    ∧ (∀ idx, __len__ d ≤ idx < 200000 →
         Subset.__getitem__ decode (sub_lsun_dset s) idx = inl IndexError)
    ∧ (∀ idx item lbl,
         Subset.__getitem__ decode (sub_lsun_dset s) idx = inr (item, lbl)
         ∨ Subset.__getitem__ decode (sub_lsun_test s) idx = inr (item, lbl) →
         lbl = PyInt 0).
Proof.
  rewrite get_lsun_dataloader_spec.
  destruct (__init__ _ _ _ _ w) as [[e|d] w1] eqn:Hinit; [done|].
  intros [= <- <-]. exists d. split; [done|].
  pose proof Hinit as (Hcl & _)%init_inv.
  destruct (init_handles _ _ _ _ _ _ _ Hinit) as (Hd & Htt & Hn & _).
  rewrite verify_classes_single in Hcl.
  destruct (verify_class (PyStr dataset)) as [e|[]] eqn:Hv; [done|].
  simpl in Hcl. injection Hcl as Hcl. rewrite <- Hcl in Hn.
  apply verify_class_ok_inv in Hv.
  assert (∀ n idx, 0 ≤ idx < n →
    Subset.__getitem__ decode (Subset.Build image d (range n)) idx
    = __getitem__ decode d idx) as Hsub.
  { intros n idx Hi. unfold Subset.__getitem__. simpl.
    by rewrite py_index_range. }
  assert (∀ n idx item lbl,
    Subset.__getitem__ decode (Subset.Build image d (range n)) idx
    = inr (item, lbl) → lbl = PyInt 0) as Hlbl.
  { intros n idx item lbl. unfold Subset.__getitem__. simpl.
    destruct (py_index (range n) idx) as [e|i]; simpl; [done|].
    intros (k & db & Hk & ->)%getitem_label.
    apply lookup_lt_Some in Hk. rewrite Hn in Hk. simpl in Hk.
    unfold label. rewrite Htt. simpl. f_equal. lia. }
  split; [exact Hv|]. split; [symmetry; exact Hcl|].
  cbn [sub_lsun_dset sub_lsun_test printed Subset.dataset].
  split; [reflexivity|]. split; [reflexivity|].
  unfold Subset.__len__. cbn [Subset.indices].
  rewrite !range_length by lia.
  split; [reflexivity|]. split; [reflexivity|]. split; [reflexivity|].
  split; [intros idx Hi; apply Hsub; exact Hi|].
  split; [intros idx Hi; apply Hsub; exact Hi|]. split.
  - intros idx Hi.
    assert (0 ≤ __len__ d) as Hpos.
    { unfold __len__. rewrite (proj2 (built_indices d Hd)).
      apply total_length_nonneg. }
    rewrite Hsub by lia. apply getitem_past; [exact Hd|lia].
  - intros idx item lbl [H|H]; apply Hlbl in H; exact H.
Qed.

(** X18: [get_lsun_dataloader] fails, with nothing opened, when the
    name it is given is no valid class name, and reaches its [return]
    when the name is valid, the store is at the path and the cache file
    can be read or is not there; the first length that it prints is then
    the number of entries of the store. *)
Theorem get_lsun_dataloader_runs transform path_to_data dataset w :
  (¬ valid_class dataset →
   ∃ e, get_lsun_dataloader (image:=image) transform path_to_data dataset w
        = (inl e, w))
  ∧ (∀ env, valid_class dataset →
       stores w !! path_to_data = Some env →
       files w !! LSUNClass.cache_file path_to_data ≠ Some Unreadable →
       ∃ s w',
         get_lsun_dataloader (image:=image) transform path_to_data dataset w
         = (inr s, w')
         ∧ printed s = [Z.of_nat (stat_entries env); 200000]).
Proof.
  split.
  - intros Hv. rewrite get_lsun_dataloader_spec.
    unfold __init__, mbind, io_bind, lift. rewrite verify_classes_single.
    destruct (verify_class (PyStr dataset)) as [e|[]] eqn:Hc; simpl.
    + by exists e.
    + destruct Hv. by apply verify_class_ok_inv.
  - intros env Hv Hs Hf. rewrite get_lsun_dataloader_spec.
    unfold __init__, mbind, io_bind, lift.
    rewrite verify_classes_single, (verify_class_valid _ Hv). simpl.
    unfold mbind, io_bind.
    destruct (LSUNClass_init_keys_in (image:=image) path_to_data
                (Some transform) None w env Hs Hf) as (w' & -> & _).
    cbn [boundaries app]. do 2 eexists. split; [reflexivity|].
    cbn [printed]. unfold Subset.__len__. cbn [Subset.indices].
    rewrite range_length by lia.
    unfold __len__, LSUNClass.__len__, stat_entries. simpl. reflexivity.
Qed.

End entry.

(** ** The further properties at the example data *)

Section more_instances.
Import LSUNCustomDataLoader Examples Worlds.

Lemma cache_collision_witness :
  ∃ h1 w1 h2 w2,
    LSUNClass.__init__ (image:=bytes) "data/1" None None twin_world
      = (inr h1, w1)
    ∧ LSUNClass.__init__ (image:=bytes) "data/2" None None w1 = (inr h2, w2)
    ∧ LSUNClass.keys h2 = [("a0", "x0")].*1
    ∧ LSUNClass.env h2 = [("b0", "y0"); ("b1", "y1")]
    ∧ LSUNClass.length h2 = stat_entries [("b0", "y0"); ("b1", "y1")]
    ∧ count_events is_scan (trace w2)
      = S (count_events is_scan (trace twin_world)).
Proof.
  apply (cache_collision (image:=bytes) "data/1" "data/2" None None
           twin_world); reflexivity.
Defined.

Lemma LSUNClass_init_frame_witness :
  let r := LSUNClass.__init__ (image:=bytes) "data" None None fresh_world in
  stores r.2 = stores fresh_world
  ∧ (∀ path, path ≠ LSUNClass.cache_file "data" →
       files r.2 !! path = files fresh_world !! path)
  ∧ (is_Some (files fresh_world !! LSUNClass.cache_file "data") →
     files r.2 = files fresh_world)
  ∧ (stores fresh_world !! "data" = None →
     r.1 = inl LmdbError ∧ r.2 = fresh_world)
  ∧ (∃ new, trace r.2 = new ++ trace fresh_world).
Proof.
  intros r.
  apply (LSUNClass_init_frame "data" None None fresh_world r.1 r.2).
  reflexivity.
Defined.

Lemma LSUNClass_getitem_entry_witness :
  ∃ h w', LSUNClass.__init__ (image:=bytes) "data" None None fresh_world
          = (inr h, w')
    ∧ LSUNClass.__getitem__ decode_but_v1 h (Z.of_nat 2)
      = fetched decode_but_v1 None None "v2"
    ∧ LSUNClass.__getitem__ decode_but_v1 h
        (Z.of_nat 2 - Z.of_nat (List.length sheep_env))
      = fetched decode_but_v1 None None "v2".
Proof.
  apply (LSUNClass_getitem_entry decode_but_v1 "data" None None fresh_world
           sheep_env 2 "k2" "v2").
  - reflexivity.
  - left. reflexivity.
  - by apply (bool_decide_unpack _).
  - reflexivity.
Defined.

Lemma stale_cache_fetch_witness :
  ∃ h w', LSUNClass.__init__ (image:=bytes) "data" None None lost_key_world
          = (inr h, w')
    ∧ LSUNClass.__len__ h = 3
    ∧ LSUNClass.__getitem__ Some h 2 = inl IndexError
    ∧ LSUNClass.__getitem__ Some h (Z.of_nat 1) = inl TypeError
    ∧ LSUNClass.__getitem__ Some h (Z.of_nat 0)
      = fetched Some None None "v0".
Proof.
  destruct (stale_cache_fetch (image:=bytes) Some "data" None None
              lost_key_world [("k0", "v0"); ("k1", "v1"); ("k3", "v3")]
              ["k0"; "k2"] eq_refl eq_refl)
    as (h & w' & Hinit & Hlen & Hpast & Hlost & Hread).
  exists h, w'. split; [exact Hinit|]. split; [exact Hlen|].
  split; [apply Hpast; simpl; lia|].
  split; [apply (Hlost 1%nat "k2"); reflexivity|].
  apply (Hread 0%nat "k0" "v0"); reflexivity.
Defined.

Lemma boundaries_sorted_witness :
  0 ≤ 3 ∧ 3 ≤ 8 ∧ 8 ≤ __len__ two_stores.
Proof.
  apply (boundaries_sorted two_stores 0 1 3 8); [reflexivity|lia|..];
    reflexivity.
Defined.

Lemma init_sheep_pair_full :
  __init__ "data" (PyList [PyStr "sheep_train"; PyStr "sheep_val"]) None None
    fresh_world
  = (inr sheep_pair,
     World {[ "data" := sheep_env ]}
           {[ "_cache_data" := Pickled ["k0"; "k1"; "k2"] ]}
           [EvLoad "_cache_data"; EvOpen "data"; EvDump "_cache_data";
            EvScan "data"; EvOpen "data"]).
Proof. vm_compute. reflexivity. Defined.

Lemma resolve_div_mod_witness :
  __len__ sheep_pair
  = Z.of_nat (List.length (LSUNCustomDataLoader.classes sheep_pair))
    * Z.of_nat (stat_entries sheep_env)
  ∧ ∀ i, 0 ≤ i < __len__ sheep_pair →
      resolve sheep_pair i
      = (i / Z.of_nat (stat_entries sheep_env),
         i `mod` Z.of_nat (stat_entries sheep_env)).
Proof.
  apply (resolve_div_mod "data"
           (PyList [PyStr "sheep_train"; PyStr "sheep_val"]) None None
           fresh_world sheep_pair _ sheep_env init_sheep_pair_full).
  reflexivity.
Defined.

Lemma dataset_getitem_entry_witness :
  __getitem__ decode_but_v1 sheep_pair 5
  = ('(img, _) ← fetched decode_but_v1 None None "v2";
     ret (img,
          from_option (λ f, f (PyInt (5 / Z.of_nat (stat_entries sheep_env))))
            (PyInt (5 / Z.of_nat (stat_entries sheep_env))) None)).
Proof.
  apply (dataset_getitem_entry decode_but_v1 "data"
           (PyList [PyStr "sheep_train"; PyStr "sheep_val"]) None None
           fresh_world sheep_pair _ sheep_env 5 "k2" "v2"
           init_sheep_pair_full).
  - reflexivity.
  - left. reflexivity.
  - by apply (bool_decide_unpack _).
  - unfold __len__. simpl. lia.
  - reflexivity.
Defined.

Lemma init_failures_witness :
  __init__ (image:=bytes) "data" (PyStr "sheep_train") None None fresh_world
    = (inl (unknown_category ""), fresh_world)
  ∧ __init__ (image:=bytes) "nowhere" (PyStr "val") None None fresh_world
    = (inl LmdbError, fresh_world)
  ∧ ∃ w', __init__ (image:=bytes) "data" (PyStr "test") None None
            broken_cache_world = (inl UnpicklingError, w')
      ∧ stores w' = stores broken_cache_world
      ∧ files w' = files broken_cache_world.
Proof.
  split; [|split].
  - apply (proj1 (init_failures "data" (PyStr "sheep_train") None None
                    fresh_world)). reflexivity.
  - eapply (proj1 (proj2 (init_failures "nowhere" (PyStr "val") None None
                            fresh_world))); reflexivity.
  - eapply (proj2 (proj2 (init_failures "data" (PyStr "test") None None
                            broken_cache_world))); reflexivity.
Defined.

Lemma init_empty_witness :
  ∃ d, __init__ (image:=bytes) "nowhere" (PyStr "") None None fresh_world
       = (inr d, fresh_world)
    ∧ dbs d = [] ∧ __len__ d = 0
    ∧ ∀ (decode : bytes → option bytes) i,
        __getitem__ decode d i = inl IndexError.
Proof.
  destruct (init_empty (image:=bytes) "nowhere" (PyStr "") None None
              fresh_world) as [Hiff Hbuild].
  apply Hbuild. apply (proj2 Hiff). by right.
Defined.

Lemma init_opens_and_scans_witness :
  ∃ new,
    [EvLoad "_cache_data"; EvOpen "data"; EvDump "_cache_data";
     EvScan "data"; EvOpen "data"] = new ++ []
    ∧ count_events is_open new = 2%nat
    ∧ count_events is_scan new = 1%nat.
Proof.
  exact (init_opens_and_scans "data"
           (PyList [PyStr "sheep_train"; PyStr "sheep_val"]) None None
           fresh_world sheep_pair _ init_sheep_pair_full).
Defined.

Lemma get_lsun_dataloader_subsets_witness :
  ∃ s w', get_lsun_dataloader (λ img : bytes, img) "data" "sheep_train"
            fresh_world = (inr s, w')
    ∧ printed s = [3; 200000]
    ∧ Subset.__len__ (sub_lsun_dset s) = 200000
    ∧ Subset.__getitem__ Some (sub_lsun_dset s) 2 = inr ("v2", PyInt 0)
    ∧ Subset.__getitem__ Some (sub_lsun_dset s) 3 = inl IndexError.
Proof.
  destruct (get_lsun_dataloader_ok (image:=bytes) (λ img, img) "data"
              "sheep_train" fresh_world sheep_env) as (s & w' & Hrun).
  { apply (valid_class_intro "sheep" "train");
      by apply (bool_decide_unpack _). }
  { reflexivity. }
  { discriminate. }
  exists s, w'. split; [exact Hrun|].
  destruct (get_lsun_dataloader_subsets Some _ _ _ _ _ _ Hrun)
    as (d & Hinit & _ & _ & _ & _ & Hprinted & Hlen & _ & Hsub & _ & Hpast & _).
  vm_compute in Hinit. injection Hinit as <- _.
  split; [exact Hprinted|]. split; [exact Hlen|]. split.
  - rewrite Hsub by lia. reflexivity.
  - apply Hpast. unfold __len__. simpl. lia.
Defined.

Lemma get_lsun_dataloader_runs_witness :
  (∃ e, get_lsun_dataloader (λ img : bytes, img) "data" "sheep"
          fresh_world = (inl e, fresh_world))
  ∧ ∃ s w', get_lsun_dataloader (λ img : bytes, img) "data" "sheep_train"
              fresh_world = (inr s, w')
      ∧ printed s = [Z.of_nat (stat_entries sheep_env); 200000].
Proof.
  split.
  - apply (proj1 (get_lsun_dataloader_runs (λ img : bytes, img) "data"
                    "sheep" fresh_world)).
    intros (category & dset_opt & Hc & Hcat & _).
    vm_compute in Hc. injection Hc as <- _. revert Hcat.
    by apply (bool_decide_unpack _).
  - apply (proj2 (get_lsun_dataloader_runs (λ img : bytes, img) "data"
                    "sheep_train" fresh_world) sheep_env).
    + apply (valid_class_intro "sheep" "train");
        by apply (bool_decide_unpack _).
    + reflexivity.
    + discriminate.
Defined.

End more_instances.
